(** * Product Hunt scraper: extraction, orchestration and storage

    A shallow embedding of [src/scraper.py], [src/database.py],
    [src/models.py] and the crawler of [main.py], followed by the
    properties of the specification that concern them.

    Conventions of the embedding.
    - A Python [str] is the sequence of its Unicode code points
      ([str], a list of numbers): its length, its slices and its
      characters are those Python sees.  [lit] turns an ASCII literal
      into such a sequence.
    - White space and decimal digits are those of the Unicode character
      database (version 14.0, the one of CPython 3.11).  The lower-case
      mapping is written out for ASCII and is a parameter outside it.
    - The parsed page is the tree BeautifulSoup hands to the program; the
      HTML tokenizer is a collaborator and is not modelled.
    - pydantic is the 1.x line the program is written against ([.dict()],
      [class Config]): an [HttpUrl] field is a [str] that passed the URL
      check.  The check itself and [urllib.parse.urljoin] are parameters.
    - Exceptions are values of [exn]; a computation that reads the clock
      or talks to the network is a function of the [World].  A call that
      never returns (a sleep without end) is not modelled.
    - The PostgreSQL and MongoDB servers are modelled by the part of
      their documented behaviour the statements of the program touch. *)

From Stdlib Require Import String Ascii List ZArith NArith Bool Lia Arith.
From Stdlib Require Import Permutation Sorted.
Import ListNotations.
Open Scope string_scope.
Open Scope list_scope.

(** ** Text *)

(** a Python [str]: its code points *)
Definition str : Type := list N.

(** the [str] an ASCII literal stands for *)
Definition lit (s : string) : str := map N_of_ascii (list_ascii_of_string s).

(** ** The BeautifulSoup tree *)

(** An attribute value is a string, or for the multi-valued attributes
    ([class], [rel], ...) the list of its tokens.  BeautifulSoup decides
    by the name of the attribute: [href], [src] and [data-test] are
    always strings. *)
Inductive attr_value :=
| AttrStr (s : str)
| AttrList (tokens : list str).

(** [NavigableString] covers text and CDATA, the strings [get_text]
    returns; [Comment] stands for every other string class (comments,
    declarations, script and style bodies), which [get_text] leaves out. *)
#[warnings="-register-all"]
Inductive PageElement :=
| Tag (name : str) (attrs : list (str * attr_value))
      (contents : list PageElement)
| NavigableString (s : str)
| Comment (s : str).

(** ** The models of [models.py] *)

Record ProductData := mkProductData {
  name : str;
  tagline : str;
  description : option str;
  url : option str;
  votes : option Z;
  comments : option Z;
  maker : option str;
  category : option str;
  launch_date : option Z;
  image_url : option str;
  scraped_at : Z;
  source_url : str
}.

Record ScrapingResult := mkScrapingResult {
  success : bool;
  products : list ProductData;
  total_count : nat;
  page_url : str;
  result_scraped_at : Z;
  error_message : option str
}.

(** the two managers [DatabaseFactory] can build *)
Inductive DatabaseManager := PostgreSQL | MongoDB.

(** ** Exceptions, collaborators and the monad of effectful code *)

Inductive exn :=
| FetchError (msg : str)
| ValidationError (msg : str)
| ValueError (msg : str)
| OverflowError (msg : str)
| DatabaseError (msg : str).

(** [str(e)] *)
Definition str_of_exn (e : exn) : str :=
  match e with
  | FetchError m | ValidationError m | ValueError m | OverflowError m
  | DatabaseError m => m
  end.

(** What the program calls and does not define: the clock, the browser
    and its page, the HTTP session, the two sleeps, pydantic's URL check
    and [urljoin]; for the crawler of [main.py] also the database server
    behind the manager and the file exporter; and of the interpreter,
    its lower-case mapping outside ASCII.
    [unicode_lower before c after] is what [str.lower] puts for the code
    point [c], 128 or above, of a string in which [before] precedes it
    and [after] follows it (the context decides for the capital sigma).
    [page_content] is [page.content()] parsed by BeautifulSoup;
    [requests_get] is [session.get], [raise_for_status] and the parse;
    [asyncio_sleep] is [await asyncio.sleep(self.delay)] and
    [time_sleep] is [time.sleep(self.delay)], which raise on a delay
    they do not take;
    [browser_close] is [ProductHuntScraper.close], which swallows its
    exceptions; [db_save_products] is [save_products] of the manager,
    which returns a flag or, when its own [except] block fails, raises;
    [export_products] is the file branch of [save_results]. *)
Class Collaborators := {
  World : Type;
  unicode_lower : str -> N -> str -> str;
  datetime_now : World -> Z * World;
  page_goto : str -> World -> (exn + unit) * World;
  page_wait_for_selector : str -> World -> (exn + unit) * World;
  page_content : World -> (exn + PageElement) * World;
  requests_get : str -> World -> (exn + PageElement) * World;
  asyncio_sleep : World -> (exn + unit) * World;
  time_sleep : World -> (exn + unit) * World;
  is_http_url : str -> bool;
  urljoin : str -> str -> str;
  browser_start : World -> (exn + unit) * World;
  browser_close : World -> World;
  db_connect : DatabaseManager -> World -> (exn + unit) * World;
  db_disconnect : DatabaseManager -> World -> (exn + unit) * World;
  db_save_products :
    DatabaseManager -> list ProductData -> World -> (exn + bool) * World;
  db_get_stats : DatabaseManager -> World -> World;
  export_products : list ProductData -> World -> (exn + unit) * World
}.

Section Monad.
Context {C : Collaborators}.

Definition M (A : Type) : Type := World -> (exn + A) * World.

Definition ret {A} (a : A) : M A := fun w => (inr a, w).

Definition raise {A} (e : exn) : M A := fun w => (inl e, w).

Definition bind {A B} (m : M A) (k : A -> M B) : M B :=
  fun w =>
    match m w with
    | (inr a, w') => k a w'
    | (inl e, w') => (inl e, w')
    end.

(** [try: m  except Exception as e: h e] *)
Definition try_except {A} (m : M A) (h : exn -> M A) : M A :=
  fun w =>
    match m w with
    | (inl e, w') => h e w'
    | r => r
    end.

Definition now : M Z := fun w => let (t, w') := datetime_now w in (inr t, w').

End Monad.

Declare Scope monad_scope.
Delimit Scope monad_scope with monad.
Notation "x <- m ;; k" := (bind m (fun x => k))
  (at level 61, m at next level, right associativity) : monad_scope.
Notation "m ;;; k" := (bind m (fun _ => k))
  (at level 61, right associativity) : monad_scope.

(** ** Python [str] operations *)

Module Py.

(** [a == b] *)
Fixpoint eqb (a b : str) : bool :=
  match a, b with
  | [], [] => true
  | x :: a', y :: b' => N.eqb x y && eqb a' b'
  | _, _ => false
  end.

(** [p] is a prefix of [s] *)
Fixpoint prefix (p s : str) : bool :=
  match p, s with
  | [], _ => true
  | x :: p', y :: s' => N.eqb x y && prefix p' s'
  | _ :: _, [] => false
  end.

(** [s.startswith(p)] *)
Definition startswith (s p : str) : bool := prefix p s.

(** [needle in hay] *)
Fixpoint contains (needle hay : str) : bool :=
  prefix needle hay ||
  match hay with
  | [] => false
  | _ :: r => contains needle r
  end.

(** truth value of a [str] *)
Definition truthy (s : str) : bool :=
  match s with [] => false | _ => true end.

(** [a or b] on strings *)
Definition str_or (a b : str) : str := if truthy a then a else b.

(** [a or b] on lists *)
Definition list_or {A} (a b : list A) : list A :=
  match a with [] => b | _ => a end.

(** [a or b] on values that are [None] or truthy objects *)
Definition opt_or {A} (a b : option A) : option A :=
  match a with Some _ => a | None => b end.

(** [c.isspace()], the characters [str.strip()] removes: U+0009 to
    U+000D, U+001C to U+0020, U+0085, U+00A0, U+1680, U+2000 to U+200A,
    U+2028, U+2029, U+202F, U+205F and U+3000 *)
Definition is_space (c : N) : bool :=
  (((9 <=? c) && (c <=? 13)) || ((28 <=? c) && (c <=? 32)) ||
   (c =? 133) || (c =? 160) || (c =? 5760) ||
   ((8192 <=? c) && (c <=? 8202)) ||
   (c =? 8232) || (c =? 8233) || (c =? 8239) || (c =? 8287) ||
   (c =? 12288))%N.

Fixpoint lstrip (s : str) : str :=
  match s with
  | [] => []
  | c :: r => if is_space c then lstrip r else s
  end.

Fixpoint rstrip (s : str) : str :=
  match s with
  | [] => []
  | c :: r =>
      match rstrip r with
      | [] => if is_space c then [] else [c]
      | r' => c :: r'
      end
  end.

(** [s.strip()] *)
Definition strip (s : str) : str := rstrip (lstrip s).

(** [s[:n]] *)
Definition take (n : nat) (s : str) : str := firstn n s.

(** [s[n:]] *)
Definition drop (n : nat) (s : str) : str := skipn n s.

(** [sep.join(l)] *)
Fixpoint join (sep : str) (l : list str) : str :=
  match l with
  | [] => []
  | [x] => x
  | x :: r => x ++ sep ++ join sep r
  end.

(** the code points of the digits zero of the decimal digit characters
    (category Nd): each is followed by its digits one to nine *)
Definition decimal_zeros : list N :=
  [48; 1632; 1776; 1984; 2406; 2534; 2662; 2790; 2918; 3046; 3174; 3302;
   3430; 3558; 3664; 3792; 3872; 4160; 4240; 6112; 6160; 6470; 6608; 6784;
   6800; 6992; 7088; 7232; 7248; 42528; 43216; 43264; 43472; 43504; 43600;
   44016; 65296; 66720; 68912; 69734; 69872; 69942; 70096; 70384; 70736;
   70864; 71248; 71360; 71472; 71904; 72016; 72784; 73040; 73120; 92768;
   92864; 93008; 120782; 120792; 120802; 120812; 120822; 123200; 123632;
   125264; 130032]%N.

Fixpoint decimal_in (zeros : list N) (c : N) : option N :=
  match zeros with
  | [] => None
  | z :: r =>
      if ((z <=? c) && (c <? z + 10))%N then Some (c - z)%N
      else decimal_in r c
  end.

(** the value of [c] as a decimal digit, when it is one *)
Definition decimal (c : N) : option N := decimal_in decimal_zeros c.

(** what [\d] matches in a [str] pattern *)
Definition is_digit (c : N) : bool :=
  match decimal c with Some _ => true | None => false end.

(** the longest run of digits at the head of [s] *)
Fixpoint digit_run (s : str) : str :=
  match s with
  | c :: r => if is_digit c then c :: digit_run r else []
  | [] => []
  end.

(** [re.findall(r'\d+', s)[0]] when there is one, as [re.search] would
    find it: the leftmost maximal run of digits *)
Fixpoint first_digits (s : str) : option str :=
  match s with
  | [] => None
  | c :: r => if is_digit c then Some (digit_run s) else first_digits r
  end.

Definition digit_val (c : N) : Z :=
  match decimal c with Some v => Z.of_N v | None => 0%Z end.

Fixpoint int_acc (acc : Z) (s : str) : Z :=
  match s with
  | [] => acc
  | c :: r => int_acc (10 * acc + digit_val c) r
  end.

(** [int(s)] on a string of digits.  The interpreter refuses to convert
    more digits than [sys.get_int_max_str_digits()], 4300 unless it is
    set otherwise; that bound is not modelled. *)
Definition int (s : str) : Z := int_acc 0 s.

Section Lower.
Context {C : Collaborators}.

(** [c] lowered inside a string: ASCII by the ASCII rule *)
Definition lower_char (before : str) (c : N) (after : str) : str :=
  if (c <? 128)%N then
    [if ((65 <=? c) && (c <=? 90))%N then (c + 32)%N else c]
  else unicode_lower before c after.

Fixpoint lower_from (before s : str) : str :=
  match s with
  | [] => []
  | c :: r => lower_char before c r ++ lower_from (before ++ [c]) r
  end.

(** [s.lower()] *)
Definition lower (s : str) : str := lower_from [] s.

End Lower.

End Py.

(** ** BeautifulSoup's searches *)

Module Bs4.

(** document order: an element, then its contents *)
Fixpoint self_and_descendants (e : PageElement) : list PageElement :=
  match e with
  | Tag _ _ cs => e :: flat_map self_and_descendants cs
  | _ => [e]
  end.

(** [e.descendants] *)
Definition descendants (e : PageElement) : list PageElement :=
  match e with
  | Tag _ _ cs => flat_map self_and_descendants cs
  | _ => []
  end.

(** [tag.attrs.get(key)] *)
Fixpoint get_attr (key : str) (attrs : list (str * attr_value))
  : option attr_value :=
  match attrs with
  | [] => None
  | (k, v) :: r => if Py.eqb k key then Some v else get_attr key r
  end.

(** what [find_all] is given for the tag name *)
Inductive name_filter :=
| NameIs (n : str)
| NameIn (ns : list str).

(** what [find_all] is given for one attribute: a string to equal,
    [True], or a function of the value (called with [None] when the
    attribute is missing) *)
Inductive attr_filter :=
| AttrEq (v : str)
| AttrPresent
| AttrFn (f : option str -> bool).

Definition matches_name (nf : name_filter) (n : str) : bool :=
  match nf with
  | NameIs m => Py.eqb n m
  | NameIn ms => existsb (Py.eqb n) ms
  end.

(** [SoupStrainer._matches] on one attribute value.  A multi-valued
    attribute matches when one of its tokens does, or when the tokens
    joined by a space do. *)
Definition matches_value (v : option attr_value) (af : attr_filter) : bool :=
  match af with
  | AttrFn f =>
      match v with
      | None => f None
      | Some (AttrStr s) => f (Some s)
      | Some (AttrList l) =>
          existsb (fun t => f (Some t)) l || f (Some (Py.join (lit " ") l))
      end
  | AttrPresent =>
      match v with None => false | Some _ => true end
  | AttrEq x =>
      match v with
      | None => negb (Py.truthy x)
      | Some (AttrStr s) => Py.eqb s x
      | Some (AttrList l) =>
          existsb (fun t => Py.eqb t x) l || Py.eqb (Py.join (lit " ") l) x
      end
  end.

Definition matches_tag (nf : name_filter)
           (afs : list (str * attr_filter)) (e : PageElement) : bool :=
  match e with
  | Tag n attrs _ =>
      matches_name nf n &&
      forallb (fun kf => matches_value (get_attr (fst kf) attrs) (snd kf)) afs
  | _ => false
  end.

(** [e.find_all(name, attrs)] *)
Definition find_all (nf : name_filter) (afs : list (str * attr_filter))
           (e : PageElement) : list PageElement :=
  filter (matches_tag nf afs) (descendants e).

(** [e.find(name, attrs)] *)
Definition find (nf : name_filter) (afs : list (str * attr_filter))
           (e : PageElement) : option PageElement :=
  hd_error (find_all nf afs e).

(** the pieces [get_text(strip=True)] joins: every text string below
    the element, stripped, the empty ones dropped *)
Fixpoint stripped_strings (l : list PageElement) : list str :=
  match l with
  | [] => []
  | NavigableString s :: r =>
      let t := Py.strip s in
      if Py.truthy t then t :: stripped_strings r else stripped_strings r
  | _ :: r => stripped_strings r
  end.

(** [e.get_text(strip=True)] *)
Definition get_text_strip (e : PageElement) : str :=
  Py.join [] (stripped_strings (descendants e)).

(** every element of a list with the elements after it: for the
    document in document order, an element with its [next_elements] *)
Fixpoint with_next {A} (l : list A) : list (A * list A) :=
  match l with
  | [] => []
  | x :: r => (x, r) :: with_next r
  end.

(** [title.find_next(names)], given the title's [next_elements] *)
Definition find_next (nf : name_filter) (next_elements : list PageElement)
  : option PageElement :=
  hd_error (filter (matches_tag nf []) next_elements).

(** [tag['href']], [tag.get('src')] as text *)
Definition attr_text (key : str) (e : PageElement) : option str :=
  match e with
  | Tag _ attrs _ =>
      match get_attr key attrs with
      | Some (AttrStr s) => Some s
      | Some (AttrList l) => Some (Py.join (lit " ") l)
      | None => None
      end
  | _ => None
  end.

End Bs4.

(** ** Constructors of the models *)

Section Models.
Context {C : Collaborators}.
Open Scope monad_scope.

(** an [Optional[HttpUrl]] field accepts [None] and a checked URL *)
Definition optional_url_ok (o : option str) : bool :=
  match o with None => true | Some s => is_http_url s end.

(** [ProductData(name=.., tagline=.., url=.., votes=.., comments=..,
    image_url=.., source_url=..)]: the fields left out take their
    defaults, [scraped_at] is read from the clock, and the URL fields
    are validated. *)
Definition new_ProductData (name tagline : str) (url : option str)
           (votes comments : option Z) (image_url : option str)
           (source_url : str) : M ProductData :=
  t <- now ;;
  if optional_url_ok url && optional_url_ok image_url && is_http_url source_url
  then ret (mkProductData name tagline None url votes comments
                          None None None image_url t source_url)
  else raise (ValidationError (lit "validation error for ProductData")).

(** [ScrapingResult(success=.., products=.., total_count=.., page_url=..,
    scraped_at=.., error_message=..)]; [page_url] is an [HttpUrl]. *)
Definition new_ScrapingResult (success : bool) (products : list ProductData)
           (total_count : nat) (page_url : str) (scraped_at : Z)
           (error_message : option str) : M ScrapingResult :=
  if is_http_url page_url
  then ret (mkScrapingResult success products total_count page_url
                             scraped_at error_message)
  else raise (ValidationError (lit "validation error for ScrapingResult")).

End Models.

(** ** [scraper.py] *)

Definition NO_DESCRIPTION : str := lit "No description available".

(** the selector [scrape_page] waits for: [data-test=(quote)product-item(quote)]
    in square brackets *)
Definition PRODUCT_ITEM_SELECTOR : str :=
  lit "[data-test=" ++ [34%N] ++ lit "product-item" ++ [34%N] ++ lit "]".

(** [ProductHuntScraper._extract_number] *)
Definition _extract_number (text : str) : Z :=
  match Py.first_digits text with
  | Some digits => Py.int digits
  | None => 0%Z
  end.

Section Scraper.
Context {C : Collaborators}.
Open Scope monad_scope.

(** [lambda x: x and any(kw in x.lower() for kw in kws)]; with one
    keyword, [lambda x: x and kw in x.lower()] *)
Definition class_has (kws : list str) : Bs4.attr_filter :=
  Bs4.AttrFn (fun x =>
    match x with
    | None => false
    | Some s => Py.truthy s && existsb (fun kw => Py.contains kw (Py.lower s)) kws
    end).

(** [ProductHuntScraper._extract_product_data] *)
Definition _extract_product_data (item_soup : PageElement) (source_url : str)
  : M (option ProductData) :=
  try_except
    (let name_elem :=
       Py.opt_or (Bs4.find (Bs4.NameIs (lit "h3")) [] item_soup)
      (Py.opt_or (Bs4.find (Bs4.NameIs (lit "h2")) [] item_soup)
      (Py.opt_or (Bs4.find (Bs4.NameIs (lit "a"))
                    [(lit "class", class_has [lit "name"])] item_soup)
                 (Bs4.find (Bs4.NameIs (lit "div"))
                    [(lit "class", class_has [lit "title"])] item_soup))) in
     let name :=
       match name_elem with Some e => Bs4.get_text_strip e | None => [] end in
     let tagline_elem :=
       Py.opt_or (Bs4.find (Bs4.NameIs (lit "p")) [] item_soup)
                 (Bs4.find (Bs4.NameIs (lit "div"))
                    [(lit "class",
                      class_has [lit "tagline"; lit "description"; lit "subtitle"])]
                    item_soup) in
     let tagline :=
       match tagline_elem with Some e => Bs4.get_text_strip e | None => [] end in
     let link_elem :=
       Bs4.find (Bs4.NameIs (lit "a")) [(lit "href", Bs4.AttrPresent)] item_soup in
     let url :=
       match link_elem with
       | Some e =>
           match Bs4.attr_text (lit "href") e with
           | Some href =>
               if Py.startswith href (lit "http") then Some href
               else if Py.startswith href (lit "/")
                    then Some (urljoin source_url href)
               else None
           | None => None
           end
       | None => None
       end in
     let vote_elem :=
       Py.opt_or (Bs4.find (Bs4.NameIs (lit "span"))
                    [(lit "class", class_has [lit "vote"])] item_soup)
                 (Bs4.find (Bs4.NameIs (lit "div"))
                    [(lit "class", class_has [lit "vote"])] item_soup) in
     let votes :=
       match vote_elem with
       | Some e => _extract_number (Bs4.get_text_strip e)
       | None => 0%Z
       end in
     let comment_elem :=
       Bs4.find (Bs4.NameIs (lit "span"))
         [(lit "class", class_has [lit "comment"])] item_soup in
     let comments :=
       match comment_elem with
       | Some e => _extract_number (Bs4.get_text_strip e)
       | None => 0%Z
       end in
     let img_elem := Bs4.find (Bs4.NameIs (lit "img")) [] item_soup in
     let image_url :=
       match img_elem with
       | Some e =>
           match Bs4.attr_text (lit "src") e with
           | Some src =>
               if Py.truthy src then
                 if Py.startswith src (lit "http") then Some src
                 else if Py.startswith src (lit "/")
                      then Some (urljoin source_url src)
                 else None
               else None
           | None => None
           end
       | None => None
       end in
     if Py.truthy name then
       p <- new_ProductData name (Py.str_or tagline NO_DESCRIPTION) url
              (Some votes) (Some comments) image_url source_url ;;
       ret (Some p)
     else ret None)
    (fun _ => ret None).

(** the containers [_parse_products] works on: the cascade of selectors *)
Definition product_items (soup : PageElement) : list PageElement :=
  let items :=
    Py.list_or (Bs4.find_all (Bs4.NameIs (lit "div"))
                  [(lit "data-test", Bs4.AttrEq (lit "product-item"))] soup)
               (Bs4.find_all (Bs4.NameIs (lit "div"))
                  [(lit "class", class_has [lit "product"])] soup) in
  match items with
  | [] =>
      Py.list_or (Bs4.find_all (Bs4.NameIs (lit "article")) [] soup)
                 (Bs4.find_all (Bs4.NameIs (lit "div"))
                    [(lit "class", class_has [lit "card"; lit "item"; lit "post"])]
                    soup)
  | _ => items
  end.

(** the loop of [_parse_products]: [products] is the list built so far *)
Fixpoint parse_items (items : list PageElement) (source_url : str)
         (products : list ProductData) : M (list ProductData) :=
  match items with
  | [] => ret products
  | item :: rest =>
      products' <-
        try_except
          (product <- _extract_product_data item source_url ;;
           match product with
           | Some p => if Py.truthy (name p) then ret (products ++ [p])
                       else ret products
           | None => ret products
           end)
          (fun _ => ret products) ;;
      parse_items rest source_url products'
  end.

(** [ProductHuntScraper._parse_products] *)
Definition _parse_products (soup : PageElement) (source_url : str)
  : M (list ProductData) :=
  parse_items (product_items soup) source_url [].

(** the [try] block of [ProductHuntScraper.scrape_page] *)
Definition scrape_page_try (url : str) : M ScrapingResult :=
  page_goto url ;;;
  asyncio_sleep ;;;
  page_wait_for_selector PRODUCT_ITEM_SELECTOR ;;;
  soup <- page_content ;;
  products <- _parse_products soup url ;;
  t <- now ;;
  new_ScrapingResult true products (length products) url t None.

(** the result the [except] blocks build:
    [ScrapingResult(success=False, products=[], total_count=0,
    page_url=url, scraped_at=.., error_message=str(e))] *)
Definition failed_result (url : str) (e : exn) : M ScrapingResult :=
  t <- now ;;
  new_ScrapingResult false [] 0 url t (Some (str_of_exn e)).

(** [ProductHuntScraper.scrape_page] *)
Definition scrape_page (url : str) : M ScrapingResult :=
  try_except (scrape_page_try url) (failed_result url).

(** [ProductHuntScraper.scrape_multiple_pages]; [results] is the list
    built so far.  Inside the [try] the result is appended before the
    sleep, so the [except] block of a sleep that raises appends to a
    list that already holds the result of the page. *)
Fixpoint scrape_pages (urls : list str) (results : list ScrapingResult)
  : M (list ScrapingResult) :=
  match urls with
  | [] => ret results
  | url :: rest =>
      fun w =>
        match scrape_page url w with
        | (inr result, w1) =>
            match asyncio_sleep w1 with
            | (inr _, w2) => scrape_pages rest (results ++ [result]) w2
            | (inl e, w2) =>
                (r <- failed_result url e ;;
                 scrape_pages rest ((results ++ [result]) ++ [r])) w2
            end
        | (inl e, w1) =>
            (r <- failed_result url e ;;
             scrape_pages rest (results ++ [r])) w1
        end
  end.

Definition scrape_multiple_pages (urls : list str) : M (list ScrapingResult) :=
  scrape_pages urls [].

(** the headings [_parse_products_simple] looks at, each with the
    elements that follow it in the document *)
Definition titles (soup : PageElement) : list (PageElement * list PageElement) :=
  filter (fun tn =>
            Bs4.matches_tag
              (Bs4.NameIn [lit "h1"; lit "h2"; lit "h3"; lit "h4"]) [] (fst tn))
         (Bs4.with_next (Bs4.descendants soup)).

(** the tagline [_parse_products_simple] gives a heading *)
Definition simple_tagline (next_elements : list PageElement) : str :=
  let description :=
    match Bs4.find_next (Bs4.NameIn [lit "p"; lit "div"]) next_elements with
    | Some next_elem => Py.take 200 (Bs4.get_text_strip next_elem)
    | None => []
    end in
  Py.str_or description NO_DESCRIPTION.

(** the loop of [_parse_products_simple] *)
Fixpoint parse_titles (ts : list (PageElement * list PageElement))
         (source_url : str) (products : list ProductData)
  : M (list ProductData) :=
  match ts with
  | [] => ret products
  | (title, next_elements) :: rest =>
      let name := Bs4.get_text_strip title in
      if (5 <? length name)%nat then
        p <- new_ProductData name (simple_tagline next_elements)
               None None None None source_url ;;
        parse_titles rest source_url (products ++ [p])
      else parse_titles rest source_url products
  end.

(** [RequestsScraper._parse_products_simple] *)
Definition _parse_products_simple (soup : PageElement) (source_url : str)
  : M (list ProductData) :=
  parse_titles (firstn 10 (titles soup)) source_url [].

(** [RequestsScraper.scrape_page] *)
Definition requests_scrape_page (url : str) : M ScrapingResult :=
  try_except
    (soup <- requests_get url ;;
     products <- _parse_products_simple soup url ;;
     time_sleep ;;;
     t <- now ;;
     new_ScrapingResult true products (length products) url t None)
    (failed_result url).

End Scraper.

(** ** [database.py] *)

(** a mean kept as the sum and the number of the values it is taken over *)
Record mean := mkMean { mean_sum : Z; mean_count : nat }.

(** the dictionary [get_stats] returns when it is not empty *)
Record Stats := mkStats {
  total_products : nat;
  unique_sources : nat;
  last_scraped : option Z;
  avg_votes : option mean
}.

(** the natural key of the upsert: [(name, source_url)] *)
Definition same_key (p q : ProductData) : bool :=
  Py.eqb (name p) (name q) && Py.eqb (source_url p) (source_url q).

(** [ORDER BY key DESC] / [sort(key, -1)].  The servers do not say in
    which order rows with equal keys come: [first x y] is the server's
    choice to put [x] before [y] when their keys are equal. *)
Fixpoint insert_desc {A} (first : A -> A -> bool) (key : A -> Z)
         (x : A) (l : list A) : list A :=
  match l with
  | [] => [x]
  | y :: r =>
      if (key x <? key y)%Z then y :: insert_desc first key x r
      else if (key y <? key x)%Z then x :: l
      else if first x y then x :: l
      else y :: insert_desc first key x r
  end.

Definition sort_desc {A} (first : A -> A -> bool) (key : A -> Z)
           (l : list A) : list A :=
  fold_right (insert_desc first key) [] l.

(** [if limit:] *)
Definition truthy_limit (limit : option Z) : option Z :=
  match limit with
  | Some n => if (n =? 0)%Z then None else Some n
  | None => None
  end.

Definition str_dec (a b : str) : {a = b} + {a <> b} :=
  list_eq_dec N.eq_dec a b.

(** [COUNT(DISTINCT source_url)] / the size of the [$addToSet] set *)
Definition count_distinct (l : list str) : nat :=
  length (nodup str_dec l).

(** [MAX(scraped_at)] / [$max] *)
Definition max_of (l : list Z) : option Z :=
  match l with
  | [] => None
  | x :: r => Some (fold_left Z.max r x)
  end.

(** the values of a nullable column that are not null *)
Fixpoint non_null (l : list (option Z)) : list Z :=
  match l with
  | [] => []
  | Some v :: r => v :: non_null r
  | None :: r => non_null r
  end.

(** [AVG(votes)] / [$avg]: nulls are left out; no value gives null *)
Definition avg_of (l : list (option Z)) : option mean :=
  match non_null l with
  | [] => None
  | vs => Some (mkMean (fold_left Z.add vs 0%Z) (length vs))
  end.

Definition stats_of (ps : list ProductData) : Stats :=
  mkStats (length ps)
          (count_distinct (map source_url ps))
          (max_of (map scraped_at ps))
          (avg_of (map votes ps)).

Definition in_range (lo hi : Z) (o : option Z) : bool :=
  match o with
  | None => true
  | Some v => (lo <=? v)%Z && (v <=? hi)%Z
  end.

(** the integers of eight bytes *)
Definition INT64_MIN : Z := (-9223372036854775808)%Z.
Definition INT64_MAX : Z := 9223372036854775807%Z.

(** *** PostgreSQL *)

Module PostgreSQLManager.

Inductive column :=
| col_id | col_name | col_tagline | col_description | col_url | col_votes
| col_comments | col_maker | col_category | col_launch_date | col_image_url
| col_scraped_at | col_source_url | col_created_at | col_updated_at.

Definition column_eqb (a b : column) : bool :=
  match a, b with
  | col_id, col_id | col_name, col_name | col_tagline, col_tagline
  | col_description, col_description | col_url, col_url
  | col_votes, col_votes | col_comments, col_comments
  | col_maker, col_maker | col_category, col_category
  | col_launch_date, col_launch_date | col_image_url, col_image_url
  | col_scraped_at, col_scraped_at | col_source_url, col_source_url
  | col_created_at, col_created_at | col_updated_at, col_updated_at => true
  | _, _ => false
  end.

Record index := mkIndex {
  index_name : string;
  index_columns : list column;
  index_unique : bool
}.

(** a row of [products]: [id], the twelve columns a [ProductData] fills,
    [created_at] and [updated_at] *)
Record row := mkRow {
  row_id : Z;
  row_data : ProductData;
  created_at : Z;
  updated_at : Z
}.

(** the table [products]: its indexes, its rows in storage order and the
    next value of the sequence behind [id SERIAL] *)
Record table := mkTable {
  indexes : list index;
  rows : list row;
  next_id : Z
}.

(** an open connection: the table as the connection sees it ([None]
    before it is created) and whether the current transaction has
    failed and awaits a rollback *)
Record connection := mkConnection {
  products_table : option table;
  in_failed_transaction : bool
}.

(** the order the server returns rows of equal [scraped_at] in: its own
    choice, which may differ between a query with [LIMIT n] and the
    query without; [comes_first limit x y] puts [x] before [y] *)
Class tie_order := { comes_first : option Z -> row -> row -> bool }.

(** [CREATE TABLE products (id SERIAL PRIMARY KEY, ...)]: the primary
    key is the only constraint the statement declares *)
Definition new_products_table : table :=
  mkTable [mkIndex "products_pkey" [col_id] true] [] 1.

(** [CREATE INDEX IF NOT EXISTS n ON products(cols)] *)
Definition create_index_if_not_exists (n : string) (cols : list column)
           (t : table) : table :=
  if existsb (fun ix => String.eqb (index_name ix) n) (indexes t) then t
  else mkTable (indexes t ++ [mkIndex n cols false]) (rows t) (next_id t).

(** [_create_tables]: [CREATE TABLE IF NOT EXISTS], the three indexes,
    then [commit] *)
Definition _create_tables (c : connection) : connection :=
  let t := match products_table c with
           | Some t => t
           | None => new_products_table
           end in
  let t := create_index_if_not_exists "idx_products_name" [col_name] t in
  let t := create_index_if_not_exists "idx_products_scraped_at" [col_scraped_at] t in
  let t := create_index_if_not_exists "idx_products_votes" [col_votes] t in
  mkConnection (Some t) false.

(** [connect] against a server that answers and whose [products] table
    is [server] *)
Definition connect (server : option table) : connection :=
  _create_tables (mkConnection server false).

Definition same_columns (a b : list column) : bool :=
  forallb (fun x => existsb (column_eqb x) b) a &&
  forallb (fun x => existsb (column_eqb x) a) b.

(** [ON CONFLICT (cols)] needs a unique index on exactly these columns *)
Definition has_arbiter (cols : list column) (t : table) : bool :=
  existsb (fun ix => index_unique ix && same_columns (index_columns ix) cols)
          (indexes t).

(** a value assigned to a [VARCHAR(n)] column: one of more than [n]
    characters is cut to [n] when all it loses is spaces, and is
    refused otherwise *)
Definition varchar (n : nat) (s : str) : option str :=
  if forallb (N.eqb 32) (skipn n s) then Some (firstn n s) else None.

Definition opt_varchar (n : nat) (o : option str) : option (option str) :=
  match o with
  | None => Some None
  | Some s => option_map Some (varchar n s)
  end.

(** an [INTEGER] column holds four bytes *)
Definition integer_ok (o : option Z) : bool :=
  in_range (-2147483648) 2147483647 o.

(** the record as the columns of [create_table_sql] store it, when they
    take it *)
Definition stored (p : ProductData) : option ProductData :=
  match varchar 255 (name p), opt_varchar 500 (url p),
        opt_varchar 255 (maker p), opt_varchar 100 (category p),
        opt_varchar 500 (image_url p), varchar 500 (source_url p) with
  | Some name', Some url', Some maker', Some category', Some image_url',
    Some source_url' =>
      if integer_ok (votes p) && integer_ok (comments p) then
        Some (mkProductData name' (tagline p) (description p) url'
                            (votes p) (comments p) maker' category'
                            (launch_date p) image_url' (scraped_at p)
                            source_url')
      else None
  | _, _, _, _, _, _ => None
  end.

Definition varchar_ok (n : nat) (s : str) : bool :=
  (length s <=? n)%nat.

Definition opt_varchar_ok (n : nat) (o : option str) : bool :=
  match o with None => true | Some s => varchar_ok n s end.

(** the values fit the column types of [create_table_sql] as they are:
    nothing has to be cut *)
Definition row_fits (p : ProductData) : bool :=
  varchar_ok 255 (name p) &&
  opt_varchar_ok 500 (url p) &&
  in_range (-2147483648) 2147483647 (votes p) &&
  in_range (-2147483648) 2147483647 (comments p) &&
  opt_varchar_ok 255 (maker p) &&
  opt_varchar_ok 100 (category p) &&
  opt_varchar_ok 500 (image_url p) &&
  varchar_ok 500 (source_url p).

(** [DO UPDATE SET tagline = EXCLUDED.tagline, description = ..,
    votes = .., comments = .., updated_at = CURRENT_TIMESTAMP] *)
Definition do_update_set (current_timestamp : Z) (excluded : ProductData)
           (r : row) : row :=
  let d := row_data r in
  mkRow (row_id r)
        (mkProductData (name d) (tagline excluded) (description excluded)
                       (url d) (votes excluded) (comments excluded)
                       (maker d) (category d) (launch_date d) (image_url d)
                       (scraped_at d) (source_url d))
        (created_at r)
        current_timestamp.

(** the row in conflict with [p] is updated; [None] when there is none *)
Fixpoint on_conflict (current_timestamp : Z) (p : ProductData)
         (rs : list row) : option (list row) :=
  match rs with
  | [] => None
  | r :: rest =>
      if same_key (row_data r) p
      then Some (do_update_set current_timestamp p r :: rest)
      else option_map (cons r) (on_conflict current_timestamp p rest)
  end.

(** [cursor.execute(insert_sql, product_dict)] inside a transaction
    whose [CURRENT_TIMESTAMP] is given.  The sequence is ahead of the
    stored ids. *)
Definition execute_insert (current_timestamp : Z) (p : ProductData)
           (t : table) : exn + table :=
  if negb (has_arbiter [col_name; col_source_url] t) then
    inl (DatabaseError (lit
      "there is no unique or exclusion constraint matching the ON CONFLICT specification"))
  else
    match stored p with
    | None =>
        inl (DatabaseError (lit "value out of range for the type of its column"))
    | Some excluded =>
        match on_conflict current_timestamp excluded (rows t) with
        | Some rs => inr (mkTable (indexes t) rs (next_id t + 1))
        | None =>
            inr (mkTable (indexes t)
                   (rows t ++ [mkRow (next_id t) excluded
                                     current_timestamp current_timestamp])
                   (next_id t + 1))
        end
    end.

(** the loop of [save_products]; a failure comes with the table as the
    failed transaction left it *)
Fixpoint execute_all (current_timestamp : Z) (products : list ProductData)
         (t : table) : exn * table + table :=
  match products with
  | [] => inr t
  | product :: rest =>
      match execute_insert current_timestamp product t with
      | inl e => inl (e, t)
      | inr t' => execute_all current_timestamp rest t'
      end
  end.

(** [connection.rollback()]: the rows are those of the last commit; the
    values the sequence gave out are not taken back *)
Definition rollback (committed : table) (abandoned : table) : table :=
  mkTable (indexes committed) (rows committed) (next_id abandoned).

(** [PostgreSQLManager.save_products] on a connection the server keeps
    open *)
Definition save_products (current_timestamp : Z) (products : list ProductData)
           (c : connection) : bool * connection :=
  match products with
  | [] => (true, c)
  | _ =>
      if in_failed_transaction c then
        (false, mkConnection (products_table c) false)
      else
        match products_table c with
        | None => (false, mkConnection None false)
        | Some t =>
            match execute_all current_timestamp products t with
            | inr t' => (true, mkConnection (Some t') false)
            | inl (_, t') => (false, mkConnection (Some (rollback t t')) false)
            end
        end
  end.

(** [PostgreSQLManager.get_products]; a statement that fails, as one
    with a negative [LIMIT] or one beyond eight bytes does, leaves the
    transaction failed, as no rollback follows it *)
Definition get_products {T : tie_order} (limit : option Z) (c : connection)
  : list row * connection :=
  if in_failed_transaction c then ([], c)
  else
    match products_table c with
    | None => ([], mkConnection None true)
    | Some t =>
        let results :=
          sort_desc (comes_first (truthy_limit limit))
                    (fun r => scraped_at (row_data r)) (rows t) in
        match truthy_limit limit with
        | Some n =>
            if ((n <? 0) || (INT64_MAX <? n))%Z
            then ([], mkConnection (Some t) true)
            else (firstn (Z.to_nat n) results, c)
        | None => (results, c)
        end
    end.

(** [PostgreSQLManager.get_stats]; [None] is the empty dictionary *)
Definition get_stats (c : connection) : option Stats * connection :=
  if in_failed_transaction c then (None, c)
  else
    match products_table c with
    | None => (None, mkConnection None true)
    | Some t => (Some (stats_of (map row_data (rows t))), c)
    end.

End PostgreSQLManager.

(** *** MongoDB *)

Module MongoDBManager.

(** a stored document: its [_id] and the twelve fields of [product.dict()] *)
Record document := mkDocument {
  _id : Z;
  fields : ProductData
}.

Record index := mkIndex {
  index_keys : list (string * Z);
  index_unique : bool
}.

(** the collection [products]: its documents in natural order, the next
    [_id] the server hands out, and its indexes *)
Record collection := mkCollection {
  documents : list document;
  next_object_id : Z;
  indexes : list index
}.

(** the order the server returns documents of equal [scraped_at] in,
    which may differ between a cursor with a limit and one without *)
Class tie_order := { comes_first : option Z -> document -> document -> bool }.

(** some document shares its key with a later one *)
Fixpoint has_duplicate_key (ds : list document) : bool :=
  match ds with
  | [] => false
  | d :: rest =>
      existsb (fun d' => same_key (fields d) (fields d')) rest ||
      has_duplicate_key rest
  end.

Fixpoint same_keys (a b : list (string * Z)) : bool :=
  match a, b with
  | [], [] => true
  | (f, d) :: a', (g, e) :: b' => String.eqb f g && Z.eqb d e && same_keys a' b'
  | _, _ => false
  end.

(** [collection.create_index(keys, unique=..)].  An index that exists
    with these keys and this option is left as it is; one that exists
    with these keys and the other option is a conflict; a unique index
    cannot be built over documents that repeat a key. *)
Definition create_index (keys : list (string * Z)) (unique : bool)
           (c : collection) : exn + collection :=
  match List.find (fun ix => same_keys (index_keys ix) keys) (indexes c) with
  | Some ix =>
      if Bool.eqb (index_unique ix) unique then inr c
      else inl (DatabaseError (lit
             "An existing index has the same name as the requested index"))
  | None =>
      if unique && has_duplicate_key (documents c) then
        inl (DatabaseError (lit "E11000 duplicate key error"))
      else
        inr (mkCollection (documents c) (next_object_id c)
                          (indexes c ++ [mkIndex keys unique]))
  end.

(** [_create_indexes]: the four indexes; a failure is logged and what
    was built before it stays *)
Definition _create_indexes (c : collection) : collection :=
  match create_index [("name", 1%Z)] false c with
  | inl _ => c
  | inr c1 =>
      match create_index [("scraped_at", 1%Z)] false c1 with
      | inl _ => c1
      | inr c2 =>
          match create_index [("votes", (-1)%Z)] false c2 with
          | inl _ => c2
          | inr c3 =>
              match create_index [("name", 1%Z); ("source_url", 1%Z)] true c3 with
              | inl _ => c3
              | inr c4 => c4
              end
          end
      end
  end.

(** [MongoDBManager.connect]; [client] is what [MongoClient(..)] and
    the look-up of the database and of its collection give: the
    collection, or the exception they raise, which [connect] logs and
    raises again *)
Definition connect (client : exn + collection) : exn + collection :=
  match client with
  | inl e => inl e
  | inr c => inr (_create_indexes c)
  end.

(** BSON has integers of at most eight bytes *)
Definition bson_encodable (p : ProductData) : bool :=
  in_range INT64_MIN INT64_MAX (votes p) &&
  in_range INT64_MIN INT64_MAX (comments p).

(** [{"$set": doc}] on the first document the filter matches: every
    field of [doc] is written, [_id] stays; [None] when none matches *)
Fixpoint set_first_match (doc : ProductData) (ds : list document)
  : option (list document) :=
  match ds with
  | [] => None
  | d :: rest =>
      if same_key (fields d) doc
      then Some (mkDocument (_id d) doc :: rest)
      else option_map (cons d) (set_first_match doc rest)
  end.

(** [collection.update_one({"name": .., "source_url": ..},
    {"$set": doc}, upsert=True)] *)
Definition update_one (doc : ProductData) (c : collection) : exn + collection :=
  if negb (bson_encodable doc) then
    inl (OverflowError (lit "MongoDB can only handle up to 8-byte ints"))
  else
    match set_first_match doc (documents c) with
    | Some ds => inr (mkCollection ds (next_object_id c) (indexes c))
    | None =>
        inr (mkCollection (documents c ++ [mkDocument (next_object_id c) doc])
                          (next_object_id c + 1) (indexes c))
    end.

(** the second loop of [save_products]; a failure comes with the
    collection as the writes before it left it *)
Fixpoint update_all (docs : list ProductData) (c : collection)
  : exn * collection + collection :=
  match docs with
  | [] => inr c
  | doc :: rest =>
      match update_one doc c with
      | inl e => inl (e, c)
      | inr c' => update_all rest c'
      end
  end.

(** [MongoDBManager.save_products] *)
Definition save_products (products : list ProductData) (c : collection)
  : bool * collection :=
  match products with
  | [] => (true, c)
  | _ =>
      match update_all products c with
      | inr c' => (true, c')
      | inl (_, c') => (false, c')
      end
  end.

(** [MongoDBManager.get_products]; [cursor.limit(n)] with a negative [n]
    returns at most [-n] documents, and a limit beyond eight bytes
    cannot be sent, which the [except] block turns into the empty list.
    [_id] is kept as it is stored. *)
Definition get_products {T : tie_order} (limit : option Z) (c : collection)
  : list document :=
  let cursor :=
    sort_desc (comes_first (truthy_limit limit))
              (fun d => scraped_at (fields d)) (documents c) in
  match truthy_limit limit with
  | Some n =>
      if (INT64_MAX <? Z.abs n)%Z then []
      else firstn (Z.to_nat (Z.abs n)) cursor
  | None => cursor
  end.

(** [MongoDBManager.get_stats]; the [$group] stage yields no document
    over an empty collection, and [None] is the empty dictionary *)
Definition get_stats (c : collection) : option Stats :=
  match documents c with
  | [] => None
  | ds => Some (stats_of (map fields ds))
  end.

End MongoDBManager.

(** *** The factory *)

Module DatabaseFactory.

Section Factory.
Context {C : Collaborators}.

(** the text of the error: the Chinese for 'unsupported database
    type', a colon and a space, then the tag *)
Definition unsupported (db_type : str) : str :=
  [19981; 25903; 25345; 30340; 25968; 25454; 24211; 31867; 22411; 58; 32]%N
  ++ db_type.

(** [DatabaseFactory.create_manager] *)
Definition create_manager (db_type : str) : exn + DatabaseManager :=
  if Py.eqb (Py.lower db_type) (lit "postgresql") then inr PostgreSQL
  else if Py.eqb (Py.lower db_type) (lit "mongodb") then inr MongoDB
  else inl (ValueError (unsupported db_type)).

End Factory.

End DatabaseFactory.

(** ** [main.py]: the crawler *)

Section Crawler.
Context {C : Collaborators}.
Open Scope monad_scope.

Definition lift_factory (r : exn + DatabaseManager) : M DatabaseManager :=
  match r with inl e => raise e | inr m => ret m end.

(** [ProductHuntCrawler.initialize]: the value is the [db_manager] the
    crawler is left with *)
Definition initialize (db_type : str) : M (option DatabaseManager) :=
  try_except
    (db_manager <- lift_factory (DatabaseFactory.create_manager db_type) ;;
     db_connect db_manager ;;;
     ret (Some db_manager))
    (fun _ => ret None).

(** [ProductHuntCrawler.cleanup] *)
Definition cleanup (db_manager : option DatabaseManager) : M unit :=
  match db_manager with
  | Some m => db_disconnect m
  | None => ret tt
  end.

(** the loop of the Requests branch of [scrape_urls] *)
Fixpoint requests_scrape_urls (urls : list str)
         (results : list ScrapingResult) : M (list ScrapingResult) :=
  match urls with
  | [] => ret results
  | url :: rest =>
      result <- requests_scrape_page url ;;
      requests_scrape_urls rest (results ++ [result])
  end.

(** [ProductHuntCrawler.scrape_urls]; [async with] starts the browser,
    and closes it whether the body returns or raises *)
Definition scrape_urls (use_playwright : bool) (urls : list str)
  : M (list ScrapingResult) :=
  if use_playwright then
    browser_start ;;;
    (fun w =>
       let (r, w') := scrape_multiple_pages urls w in (r, browser_close w'))
  else requests_scrape_urls urls [].

(** the products of the successful results, in order *)
Fixpoint all_products_of (results : list ScrapingResult) : list ProductData :=
  match results with
  | [] => []
  | result :: rest =>
      if success result then products result ++ all_products_of rest
      else all_products_of rest
  end.

(** [ProductHuntCrawler.save_results]: the flag [save_products] returns
    is only logged; what it raises is not caught *)
Definition save_results (db_manager : option DatabaseManager)
           (results : list ScrapingResult) : M unit :=
  let all_products := all_products_of results in
  match all_products with
  | [] => ret tt
  | _ =>
      match db_manager with
      | Some m => db_save_products m all_products ;;; ret tt
      | None => ret tt
      end ;;;
      export_products all_products
  end.

(** [try: body finally: cleanup] *)
Definition try_finally {A} (body : M A) (final : M unit) : M A :=
  fun w =>
    match body w with
    | (r, w') =>
        match final w' with
        | (inl e, w'') => (inl e, w'')
        | (inr _, w'') => (r, w'')
        end
    end.

(** the values [main] lets [--database] take ([choices=] of argparse) *)
Definition database_choices : list str := [lit "postgresql"; lit "mongodb"].

(** [ProductHuntCrawler.run].  The value is what the run worked with:
    the manager [initialize] left and the results of [scrape_urls]. *)
Definition run (use_playwright : bool) (db_type : str) (urls : list str)
  : M (option DatabaseManager * list ScrapingResult) :=
  fun w =>
    let (init, w1) := initialize db_type w in
    let db_manager := match init with inr m => m | inl _ => None end in
    try_finally
      (match init with
       | inl e => raise e
       | inr _ =>
           results <- scrape_urls use_playwright urls ;;
           save_results db_manager results ;;;
           match db_manager with
           | Some m => (fun w => (inr tt, db_get_stats m w))
           | None => ret tt
           end ;;;
           ret (db_manager, results)
       end)
      (cleanup db_manager)
      w1.

End Crawler.

(** ** The local values of [_extract_product_data], named

    Each definition is the value the function's local variable of the
    same name takes on a container. *)

Section Locals.
Context {C : Collaborators}.

(** [name_elem]: the first of the four searches that finds an element *)
Definition name_elem_of (item_soup : PageElement) : option PageElement :=
  Py.opt_or (Bs4.find (Bs4.NameIs (lit "h3")) [] item_soup)
 (Py.opt_or (Bs4.find (Bs4.NameIs (lit "h2")) [] item_soup)
 (Py.opt_or (Bs4.find (Bs4.NameIs (lit "a"))
               [(lit "class", class_has [lit "name"])] item_soup)
            (Bs4.find (Bs4.NameIs (lit "div"))
               [(lit "class", class_has [lit "title"])] item_soup))).

Definition name_of (item_soup : PageElement) : str :=
  match name_elem_of item_soup with
  | Some e => Bs4.get_text_strip e
  | None => []
  end.

Definition tagline_of (item_soup : PageElement) : str :=
  match
    Py.opt_or (Bs4.find (Bs4.NameIs (lit "p")) [] item_soup)
              (Bs4.find (Bs4.NameIs (lit "div"))
                 [(lit "class",
                   class_has [lit "tagline"; lit "description"; lit "subtitle"])]
                 item_soup)
  with
  | Some e => Bs4.get_text_strip e
  | None => []
  end.

(** what the two branches on [href] (and on [src]) leave in [url] *)
Definition link_of (source_url href : str) : option str :=
  if Py.startswith href (lit "http") then Some href
  else if Py.startswith href (lit "/") then Some (urljoin source_url href)
  else None.

Definition url_of (item_soup : PageElement) (source_url : str) : option str :=
  match Bs4.find (Bs4.NameIs (lit "a")) [(lit "href", Bs4.AttrPresent)] item_soup with
  | Some e =>
      match Bs4.attr_text (lit "href") e with
      | Some href => link_of source_url href
      | None => None
      end
  | None => None
  end.

Definition votes_of (item_soup : PageElement) : Z :=
  match
    Py.opt_or (Bs4.find (Bs4.NameIs (lit "span"))
                 [(lit "class", class_has [lit "vote"])] item_soup)
              (Bs4.find (Bs4.NameIs (lit "div"))
                 [(lit "class", class_has [lit "vote"])] item_soup)
  with
  | Some e => _extract_number (Bs4.get_text_strip e)
  | None => 0%Z
  end.

Definition comments_of (item_soup : PageElement) : Z :=
  match Bs4.find (Bs4.NameIs (lit "span"))
          [(lit "class", class_has [lit "comment"])] item_soup with
  | Some e => _extract_number (Bs4.get_text_strip e)
  | None => 0%Z
  end.

Definition image_url_of (item_soup : PageElement) (source_url : str)
  : option str :=
  match Bs4.find (Bs4.NameIs (lit "img")) [] item_soup with
  | Some e =>
      match Bs4.attr_text (lit "src") e with
      | Some src => if Py.truthy src then link_of source_url src else None
      | None => None
      end
  | None => None
  end.

(** the record [_extract_product_data] builds when the clock reads [t] *)
Definition record_of (item_soup : PageElement) (source_url : str) (t : Z)
  : ProductData :=
  mkProductData (name_of item_soup)
                (Py.str_or (tagline_of item_soup) NO_DESCRIPTION)
                None
                (url_of item_soup source_url)
                (Some (votes_of item_soup))
                (Some (comments_of item_soup))
                None None None
                (image_url_of item_soup source_url)
                t source_url.

(** a heading is kept when its text has more than five characters *)
Definition long_enough (tn : PageElement * list PageElement) : bool :=
  (5 <? length (Bs4.get_text_strip (fst tn)))%nat.

(** pydantic accepts the record *)
Definition record_valid (item_soup : PageElement) (source_url : str) : bool :=
  optional_url_ok (url_of item_soup source_url) &&
  optional_url_ok (image_url_of item_soup source_url) &&
  is_http_url source_url.

(** the failed result the [except] blocks build for [url] from the
    exception [e] at the instant [t] *)
Definition failure_of (url : str) (e : exn) (t : Z) : ScrapingResult :=
  mkScrapingResult false [] 0 url t (Some (str_of_exn e)).

End Locals.

(** ** A concrete world, for the examples

    A small site, a clock that ticks at every reading, and stand-ins
    for the library functions: [is_http_url] accepts what starts with
    [http://] or [https://] and names a host with a dot in it, as
    pydantic's [HttpUrl] accepts no other scheme and no host without a
    top-level domain; [urljoin] covers the references the program passes
    to it, those that start with a slash, against a base
    [scheme://host/path]; [unicode_lower] leaves the characters outside
    ASCII as they are, the examples having none in a class or a tag. *)

Module Example.

Record world := mkWorld {
  clock : Z;
  location : str;
  exported : list (list ProductData)
}.

(** the text before the first character that [stop] holds of *)
Fixpoint until (stop : N -> bool) (s : str) : str :=
  match s with
  | [] => []
  | c :: r => if stop c then [] else c :: until stop r
  end.

(** the host of a URL, given what follows [scheme://] *)
Definition host_of (rest : str) : str :=
  until (fun c => (c =? 47)%N || (c =? 58)%N || (c =? 63)%N || (c =? 35)%N) rest.

Definition has_domain (rest : str) : bool :=
  Py.contains (lit ".") (host_of rest) &&
  negb (Py.startswith (host_of rest) (lit ".")).

Definition http_url (s : str) : bool :=
  (Py.startswith s (lit "http://") && has_domain (Py.drop 7 s)) ||
  (Py.startswith s (lit "https://") && has_domain (Py.drop 8 s)).

(** [scheme://host] of a base URL *)
Fixpoint origin (base : str) : str :=
  match base with
  | [] => []
  | c :: r =>
      if Py.startswith base (lit "://")
      then lit "://" ++ until (N.eqb 47) (Py.drop 3 base)
      else c :: origin r
  end.

Definition join_url (base ref : str) : str :=
  if Py.startswith ref (lit "/") then origin base ++ ref else ref.

Definition widget_item (wrapper : str) (attrs : list (str * attr_value))
  : PageElement :=
  Tag wrapper attrs
    [ Tag (lit "h3") [] [NavigableString (lit "Widget X")];
      Tag (lit "p") [] [NavigableString (lit "Makes widgets fast")];
      Tag (lit "a") [(lit "href", AttrStr (lit "/w/1"))]
          [NavigableString (lit "Visit")];
      Tag (lit "span") [(lit "class", AttrList [lit "votes"])]
          [NavigableString (lit "42 votes")] ].

Definition document (body : list PageElement) : PageElement :=
  Tag (lit "[document]") []
      [Tag (lit "html") [] [Tag (lit "body") [] body]].

(** the page of the scenario, with the container marked in each of the
    four ways the cascade knows *)
Definition widget_pages : list PageElement :=
  [ document [widget_item (lit "div")
                [(lit "data-test", AttrStr (lit "product-item"))]];
    document [widget_item (lit "div")
                [(lit "class", AttrList [lit "product-card"])]];
    document [widget_item (lit "article") []];
    document [widget_item (lit "div") [(lit "class", AttrList [lit "post"])]] ].

Definition widget_page : PageElement :=
  document [widget_item (lit "div")
              [(lit "data-test", AttrStr (lit "product-item"))]].

(** a page without any container: headings and paragraphs only *)
Definition plain_page : PageElement :=
  document
    [ Tag (lit "h1") [] [NavigableString (lit "  Launches of the week ")];
      Tag (lit "p") [] [NavigableString (lit "Fresh picks.")];
      Tag (lit "h2") [] [NavigableString (lit "News")];
      Tag (lit "h2") [] [NavigableString (lit "Widget Y")];
      Tag (lit "section") [] [Comment (lit "no paragraph follows")] ].



(** three records: [widget_v2] is [widget_v1] extracted again later,
    with more votes and another link; [gadget] was extracted in between *)
Definition widget_v1 : ProductData :=
  mkProductData (lit "Widget X") (lit "Makes widgets fast") None
                (Some (lit "https://example.test/w/1")) (Some 10%Z) (Some 0%Z)
                None None None None 100 (lit "https://example.test/").

Definition widget_v2 : ProductData :=
  mkProductData (lit "Widget X") (lit "Makes widgets faster") None
                (Some (lit "https://example.test/w/2")) (Some 25%Z) (Some 3%Z)
                None None None None 300 (lit "https://example.test/").

Definition gadget : ProductData :=
  mkProductData (lit "Gadget") (lit "No description available") None
                None (Some 7%Z) (Some 0%Z)
                None None None None 200 (lit "https://example.test/").

(** a record whose vote count, read off the page, exceeds eight bytes *)
Definition crowded : ProductData :=
  mkProductData (lit "Crowded") (lit "No description available") None
                None (Some (_extract_number (lit "100000000000000000000 votes")))
                (Some 0%Z)
                None None None None 400 (lit "https://example.test/").

Definition site (url : str) : exn + PageElement :=
  if Py.eqb url (lit "https://example.test/") then inr widget_page
  else if Py.eqb url (lit "https://example.test/plain") then inr plain_page
  else if Py.eqb url (lit "ftp://example.test/") then inr widget_page
  else if Py.eqb url (lit "http://localhost:8000/") then inr widget_page
  else inl (FetchError (lit "net::ERR_CONNECTION_REFUSED")).

Definition goto (url : str) (w : world) : (exn + unit) * world :=
  match site url with
  | inl e => (inl e, w)
  | inr _ => (inr tt, mkWorld (clock w) url (exported w))
  end.

(** some element of the page carries [data-test=product-item] *)
Definition has_product_item (page : PageElement) : bool :=
  existsb (fun e =>
             match e with
             | Tag _ attrs _ =>
                 Bs4.matches_value (Bs4.get_attr (lit "data-test") attrs)
                                   (Bs4.AttrEq (lit "product-item"))
             | _ => false
             end)
          (Bs4.descendants page).

Definition wait_for_selector (selector : str) (w : world)
  : (exn + unit) * world :=
  match site (location w) with
  | inr page =>
      if has_product_item page then (inr tt, w)
      else (inl (FetchError (lit "Timeout 10000ms exceeded.")), w)
  | inl e => (inl e, w)
  end.

Definition content (w : world) : (exn + PageElement) * world :=
  (site (location w), w).

Definition get (url : str) (w : world) : (exn + PageElement) * world :=
  (site url, w).

(** a sleep of two ticks *)
Definition nap (w : world) : (exn + unit) * world :=
  (inr tt, mkWorld (clock w + 2) (location w) (exported w)).

(** the file branch of [save_results] keeps what it is handed *)
Definition export (ps : list ProductData) (w : world)
  : (exn + unit) * world :=
  (inr tt, mkWorld (clock w) (location w) (exported w ++ [ps])).

(** no database server listens: every connection is refused *)
Definition refuse (m : DatabaseManager) (w : world) : (exn + unit) * world :=
  (inl (DatabaseError (lit "connection refused")), w).

Definition collaborators : Collaborators :=
  {| World := world;
     unicode_lower := fun _ c _ => [c];
     datetime_now := fun w =>
       (clock w, mkWorld (clock w + 1) (location w) (exported w));
     page_goto := goto;
     page_wait_for_selector := wait_for_selector;
     page_content := content;
     requests_get := get;
     asyncio_sleep := nap;
     time_sleep := nap;
     is_http_url := http_url;
     urljoin := join_url;
     browser_start := fun w => (inr tt, w);
     browser_close := fun w => w;
     db_connect := refuse;
     db_disconnect := fun _ w => (inr tt, w);
     db_save_products := fun _ _ w => (inr false, w);
     db_get_stats := fun _ w => w;
     export_products := export |}.

(** the same world run with a delay the sleeps do not take *)
Definition bad_delay (w : world) : (exn + unit) * world :=
  (inl (ValueError (lit "Invalid delay")), w).

Definition restless : Collaborators :=
  {| World := world;
     unicode_lower := fun _ c _ => [c];
     datetime_now := fun w =>
       (clock w, mkWorld (clock w + 1) (location w) (exported w));
     page_goto := goto;
     page_wait_for_selector := wait_for_selector;
     page_content := content;
     requests_get := get;
     asyncio_sleep := bad_delay;
     time_sleep := bad_delay;
     is_http_url := http_url;
     urljoin := join_url;
     browser_start := fun w => (inr tt, w);
     browser_close := fun w => w;
     db_connect := refuse;
     db_disconnect := fun _ w => (inr tt, w);
     db_save_products := fun _ _ w => (inr false, w);
     db_get_stats := fun _ w => w;
     export_products := export |}.

Definition world0 : world := mkWorld 1000 [] [].

(** servers that return rows of equal [scraped_at] in storage order *)
Definition pg_order : PostgreSQLManager.tie_order :=
  {| PostgreSQLManager.comes_first := fun _ _ _ => true |}.

Definition mongo_order : MongoDBManager.tie_order :=
  {| MongoDBManager.comes_first := fun _ _ _ => true |}.

End Example.

(** ** Sequences of upserts, and what the two backends share *)



(** the part of a stored record both backends write on every upsert:
    the key, and the fields [DO UPDATE SET] names *)
Definition shared_view (p : ProductData)
  : str * str * str * option str * option Z * option Z :=
  (name p, source_url p, tagline p, description p, votes p, comments p).


(** a [products] table as [_create_tables] makes it, with the unique
    constraint on the natural key added *)
Definition keyed_products_table : PostgreSQLManager.table :=
  PostgreSQLManager.mkTable
    [ PostgreSQLManager.mkIndex "products_pkey" [PostgreSQLManager.col_id] true;
      PostgreSQLManager.mkIndex "products_name_source_url_key"
        [PostgreSQLManager.col_name; PostgreSQLManager.col_source_url] true ]
    [] 1.

Definition empty_collection : MongoDBManager.collection :=
  MongoDBManager.mkCollection [] 1 [].

(** the collection [connect] leaves on a server that had none *)
Definition fresh_collection : MongoDBManager.collection :=
  MongoDBManager._create_indexes empty_collection.

(** descending order of a list of timestamps *)
Definition descending (l : list Z) : Prop :=
  StronglySorted (fun a b => (b <= a)%Z) l.

(** ** Notions for the further properties *)

(** no character of [s] is a digit *)
Fixpoint no_digit (s : str) : bool :=
  match s with
  | [] => true
  | c :: r => negb (Py.is_digit c) && no_digit r
  end.

(** every character of [s] is a digit *)
Fixpoint all_digits (s : str) : bool :=
  match s with
  | [] => true
  | c :: r => Py.is_digit c && all_digits r
  end.

Definition starts_with_digit (s : str) : bool :=
  match s with
  | [] => false
  | c :: _ => Py.is_digit c
  end.

(** the value of a run of digits, most significant first *)
Definition value_of_digits (ds : list N) : Z :=
  fold_left (fun acc d => (10 * acc + Z.of_N d)%Z) ds 0%Z.

(** the natural key of a record *)
Definition key_of (p : ProductData) : str * str :=
  (name p, source_url p).

(** the columns of a row no statement of the program writes after the
    insert: what [DO UPDATE SET] does not name *)
Definition kept_columns (r : PostgreSQLManager.row)
  : Z * Z * str * str * option str * option str * option str
    * option Z * option str * Z :=
  let d := PostgreSQLManager.row_data r in
  (PostgreSQLManager.row_id r, PostgreSQLManager.created_at r,
   name d, source_url d, url d, maker d, category d, launch_date d,
   image_url d, scraped_at d).

(** the collection has an index on [keys] with the option [unique] *)
Definition has_index (keys : list (string * Z)) (unique : bool)
           (c : MongoDBManager.collection) : bool :=
  match List.find (fun ix => MongoDBManager.same_keys
                               (MongoDBManager.index_keys ix) keys)
                  (MongoDBManager.indexes c) with
  | Some ix => Bool.eqb (MongoDBManager.index_unique ix) unique
  | None => false
  end.

(** the natural key as PostgreSQL stores it: the name cut to 255
    characters and the source URL to 500 *)
Definition stored_key (p : ProductData) : str * str :=
  (firstn 255 (name p), firstn 500 (source_url p)).

Section ContainerNotions.
Context {C : Collaborators}.


(** a result as [scrape_page] and [RequestsScraper.scrape_page] build it *)
Definition outcome_invariant (url : str) (r : ScrapingResult) : Prop :=
  page_url r = url /\
  total_count r = length (products r) /\
  (success r = true -> error_message r = None) /\
  (success r = false ->
   products r = [] /\ exists msg, error_message r = Some msg).

End ContainerNotions.

(** further data for the examples *)
Module Sample.

(** a container whose level-3 heading is blank (a no-break space
    between two spaces) and whose level-2 heading is not *)
Definition hollow_item : PageElement :=
  Tag (lit "div") [(lit "data-test", AttrStr (lit "product-item"))]
    [ Tag (lit "h3") [] [NavigableString [32; 160; 32]%N];
      Tag (lit "h2") [] [NavigableString (lit "Real name")];
      Tag (lit "p") [] [NavigableString (lit "A tagline")] ].


(** a table with the constraint, holding one row *)
Definition stocked_table : PostgreSQLManager.table :=
  PostgreSQLManager.mkTable
    (PostgreSQLManager.indexes keyed_products_table)
    [PostgreSQLManager.mkRow 1 Example.widget_v1 50 50]
    2.

(** a collection holding two documents with one key *)
Definition doubled_collection : MongoDBManager.collection :=
  MongoDBManager.mkCollection
    [MongoDBManager.mkDocument 1 Example.widget_v1;
     MongoDBManager.mkDocument 2 Example.widget_v2]
    3 [].

(** a record whose name has 256 characters, the last one a space *)
Definition padded : ProductData :=
  mkProductData (repeat 97%N 255 ++ [32%N]) (lit "Padded") None
                None (Some 1%Z) (Some 0%Z)
                None None None None 500 (lit "https://example.test/").

(** two documents scraped at the same instant *)
Definition twins : MongoDBManager.collection :=
  MongoDBManager.mkCollection
    [MongoDBManager.mkDocument 1 Example.widget_v1;
     MongoDBManager.mkDocument 2
       (mkProductData (lit "Gizmo") (lit "No description available") None
                      None (Some 1%Z) (Some 0%Z)
                      None None None None 100 (lit "https://example.test/"))]
    3 [].

End Sample.

(** * Properties *)

(** ** Text *)

Lemma py_eqb_eq (a b : str) : Py.eqb a b = true <-> a = b.
Proof.
  revert b. induction a as [|x a IH]; intros [|y b]; cbn; try (split; congruence).
  rewrite andb_true_iff, N.eqb_eq, IH. split.
  - intros [-> ->]. reflexivity.
  - intros H. injection H as -> ->. auto.
Qed.

Lemma py_eqb_refl (a : str) : Py.eqb a a = true.
Proof. now apply py_eqb_eq. Qed.

Lemma py_eqb_neq (a b : str) : Py.eqb a b = false <-> a <> b.
Proof.
  rewrite <- py_eqb_eq. destruct (Py.eqb a b); split; congruence.
Qed.

(** ** Extraction *)

Section ExtractionFacts.
Context {C : Collaborators}.

(** [_extract_product_data] in terms of its local values: no record
    without a name, none that pydantic rejects, and never an exception. *)
Lemma _extract_product_data_eq (item : PageElement) (src : str) (w : World) :
  _extract_product_data item src w =
  if Py.truthy (name_of item) then
    if record_valid item src
    then (inr (Some (record_of item src (fst (datetime_now w)))), snd (datetime_now w))
    else (inr None, snd (datetime_now w))
  else (inr None, w).
Proof.
  unfold _extract_product_data, try_except.
  cbv zeta.
  change (match
            Py.opt_or (Bs4.find (Bs4.NameIs (lit "h3")) [] item)
              (Py.opt_or (Bs4.find (Bs4.NameIs (lit "h2")) [] item)
                 (Py.opt_or
                    (Bs4.find (Bs4.NameIs (lit "a"))
                       [(lit "class", class_has [lit "name"])] item)
                    (Bs4.find (Bs4.NameIs (lit "div"))
                       [(lit "class", class_has [lit "title"])] item)))
          with
          | Some e => Bs4.get_text_strip e
          | None => []
          end) with (name_of item).
  destruct (Py.truthy (name_of item)); [|reflexivity].
  unfold bind, new_ProductData, bind, now, ret, raise.
  destruct (datetime_now w) as [t w']. cbn [fst snd].
  unfold record_valid, record_of, url_of, image_url_of, link_of, tagline_of,
         votes_of, comments_of.
  match goal with
  | |- context [if ?b then (inr ?p, w') else _] => destruct b
  end; reflexivity.
Qed.

(** the loop of [_parse_products] never raises *)
Lemma parse_items_total (items : list PageElement) (src : str) :
  forall (acc : list ProductData) (w : World),
    exists ps w', parse_items items src acc w = (inr ps, w').
Proof.
  induction items as [|item rest IH]; intros acc w; cbn [parse_items].
  - exists acc, w. reflexivity.
  - unfold bind at 1. unfold try_except, bind.
    rewrite _extract_product_data_eq.
    destruct (Py.truthy (name_of item)); [destruct (record_valid item src)|];
      unfold ret; cbn [record_of name];
      try destruct (Py.truthy _); apply IH.
Qed.

(** [_parse_products] never raises, whatever the page *)
Lemma _parse_products_total (soup : PageElement) (src : str) (w : World) :
  exists ps w', _parse_products soup src w = (inr ps, w').
Proof. apply parse_items_total. Qed.

End ExtractionFacts.

Section Extraction.
Context {C : Collaborators}.

(** C7. When none of the four selectors of the cascade finds a
    container (no [div] with [data-test="product-item"], no [div] whose
    class contains 'product', no [article], no [div] whose class
    contains 'card', 'item' or 'post'), [_parse_products] returns the
    empty list, raises nothing and leaves the world as it found it. *)
Theorem parse_products_without_container
        (soup : PageElement) (source_url : str) (w : World) :
  Bs4.find_all (Bs4.NameIs (lit "div"))
    [(lit "data-test", Bs4.AttrEq (lit "product-item"))] soup = [] ->
  Bs4.find_all (Bs4.NameIs (lit "div"))
    [(lit "class", class_has [lit "product"])] soup = [] ->
  Bs4.find_all (Bs4.NameIs (lit "article")) [] soup = [] ->
  Bs4.find_all (Bs4.NameIs (lit "div"))
    [(lit "class", class_has [lit "card"; lit "item"; lit "post"])] soup = [] ->
  _parse_products soup source_url w = (inr [], w).
Proof.
  intros Hitem Hproduct Harticle Hcard.
  unfold _parse_products, product_items.
  rewrite Hitem, Hproduct. cbn [Py.list_or].
  rewrite Harticle, Hcard. reflexivity.
Qed.

(** a page with one container whose local values are known yields the
    one record made of them *)
Lemma parse_single_item (soup item : PageElement) (src : str) (w : World) :
  product_items soup = [item] ->
  Py.truthy (name_of item) = true ->
  record_valid item src = true ->
  _parse_products soup src w =
  (inr [record_of item src (fst (datetime_now w))], snd (datetime_now w)).
Proof.
  intros Hitems Hname Hvalid.
  unfold _parse_products. rewrite Hitems. cbn [parse_items].
  unfold bind, try_except. rewrite _extract_product_data_eq, Hname, Hvalid.
  cbn [record_of name]. rewrite Hname. reflexivity.
Qed.

(** C8. The scenario of the specification: a page with one container
    holding a level-3 heading "Widget X", a paragraph "Makes widgets
    fast", an anchor to [/w/1] and a span of class "votes" reading
    "42 votes", extracted against [https://example.test/], gives exactly
    one record with that name, that tagline, the url
    [https://example.test/w/1] and 42 votes; and this for each of the
    four ways a container can be marked.  The two library functions are
    assumed to behave on these values as the libraries do. *)
Theorem widget_scenario (w : World) :
  is_http_url (lit "https://example.test/") = true ->
  is_http_url (lit "https://example.test/w/1") = true ->
  urljoin (lit "https://example.test/") (lit "/w/1") =
    lit "https://example.test/w/1" ->
  Forall (fun page =>
            exists p w',
              _parse_products page (lit "https://example.test/") w
                = (inr [p], w') /\
              name p = lit "Widget X" /\
              tagline p = lit "Makes widgets fast" /\
              url p = Some (lit "https://example.test/w/1") /\
              votes p = Some 42%Z /\
              source_url p = lit "https://example.test/")
         Example.widget_pages.
Proof.
  intros Hsrc Hurl Hjoin.
  unfold Example.widget_pages.
  repeat apply Forall_cons; try apply Forall_nil;
    (eexists; eexists; split;
     [ eapply parse_single_item;
       [ reflexivity
       | reflexivity
       | unfold record_valid;
         change (url_of _ _)
           with (Some (urljoin (lit "https://example.test/") (lit "/w/1")));
         change (image_url_of _ _) with (@None str);
         cbn [optional_url_ok]; rewrite Hjoin, Hurl, Hsrc; reflexivity ]
     | cbn [record_of name tagline url votes source_url];
       change (url_of _ _)
         with (Some (urljoin (lit "https://example.test/") (lit "/w/1")));
       rewrite Hjoin; repeat split; reflexivity ]).
Qed.


End Extraction.

(** ** The degraded strategy *)

Section SimpleStrategy.
Context {C : Collaborators}.








Lemma parse_titles_rejected (src : str)
      (ts : list (PageElement * list PageElement)) :
  is_http_url src = false ->
  forall (acc : list ProductData) (w : World),
    (filter long_enough ts = [] -> parse_titles ts src acc w = (inr acc, w)) /\
    (filter long_enough ts <> [] ->
     exists msg w', parse_titles ts src acc w = (inl (ValidationError msg), w')).
Proof.
  intros Hsrc. induction ts as [|[title next] rest IH]; intros acc w.
  - split; [reflexivity|]. intros H. now contradiction H.
  - cbn [parse_titles filter].
    destruct (long_enough (title, next)) eqn:Hlong;
      unfold long_enough in Hlong; cbn [fst] in Hlong; rewrite Hlong.
    + split; [discriminate|]. intros _.
      unfold bind, new_ProductData, bind, now, raise.
      destruct (datetime_now w) as [t w1].
      cbn [optional_url_ok andb]. rewrite Hsrc. eauto.
    + apply IH.
Qed.



End SimpleStrategy.

(** ** The orchestrator *)

Section Orchestrator.
Context {C : Collaborators}.
Open Scope monad_scope.

(** with a page URL pydantic accepts, the [except] block returns *)
Lemma failed_result_ok (url : str) (e : exn) (w : World) :
  is_http_url url = true ->
  failed_result url e w =
  (inr (mkScrapingResult false [] 0 url (fst (datetime_now w))
                         (Some (str_of_exn e))),
   snd (datetime_now w)).
Proof.
  intros Hurl. unfold failed_result, bind, now, new_ScrapingResult.
  destruct (datetime_now w) as [t w']. rewrite Hurl. reflexivity.
Qed.

(** with one it rejects, the [except] block raises in its turn *)
Lemma failed_result_raises (url : str) (e : exn) (w : World) :
  is_http_url url = false ->
  exists msg w', failed_result url e w = (inl (ValidationError msg), w').
Proof.
  intros Hurl. unfold failed_result, bind, now, new_ScrapingResult, raise.
  destruct (datetime_now w) as [t w']. rewrite Hurl. eauto.
Qed.

(** what the [try] block of [scrape_page] returns when it returns *)
Lemma scrape_page_try_inv (url : str) (w : World)
      (r : ScrapingResult) (w' : World) :
  scrape_page_try url w = (inr r, w') ->
  is_http_url url = true /\
  exists soup w1 ps w2 t,
    _parse_products soup url w1 = (inr ps, w2) /\
    r = mkScrapingResult true ps (length ps) url t None.
Proof.
  unfold scrape_page_try, bind, now.
  destruct (page_goto url w) as [[e|[]] w1]; [discriminate|].
  destruct (asyncio_sleep w1) as [[e|[]] w1']; [discriminate|].
  destruct (page_wait_for_selector _ w1') as [[e|[]] w2]; [discriminate|].
  destruct (page_content w2) as [[e|soup] w3]; [discriminate|].
  destruct (_parse_products soup url w3) as [[e|ps] w4] eqn:Hparse; [discriminate|].
  destruct (datetime_now w4) as [t w5].
  unfold new_ScrapingResult, ret, raise.
  destruct (is_http_url url); [|discriminate].
  intros H. injection H as <- _. split; [reflexivity|].
  exists soup, w3, ps, w4, t. auto.
Qed.

(** for a page URL pydantic rejects, [scrape_page] raises *)
Lemma scrape_page_raises (url : str) (w : World) :
  is_http_url url = false ->
  exists msg w', scrape_page url w = (inl (ValidationError msg), w').
Proof.
  intros Hurl. unfold scrape_page, try_except.
  destruct (scrape_page_try url w) as [[e|r] w1] eqn:Htry.
  - now apply failed_result_raises.
  - apply scrape_page_try_inv in Htry. destruct Htry as [Hok _]. congruence.
Qed.

(** for one it accepts, [scrape_page] returns: the result of the [try]
    block, or the failed result made of the exception it raised *)
Lemma scrape_page_returns (url : str) (w : World) :
  is_http_url url = true ->
  match scrape_page_try url w with
  | (inl e, w1) =>
      scrape_page url w =
      (inr (mkScrapingResult false [] 0 url (fst (datetime_now w1))
                             (Some (str_of_exn e))),
       snd (datetime_now w1))
  | (inr r, w1) => scrape_page url w = (inr r, w1)
  end.
Proof.
  intros Hurl. unfold scrape_page, try_except.
  destruct (scrape_page_try url w) as [[e|r] w1]; [|reflexivity].
  now apply failed_result_ok.
Qed.

Lemma scrape_page_total (url : str) (w : World) :
  is_http_url url = true ->
  exists r w', scrape_page url w = (inr r, w') /\ page_url r = url.
Proof.
  intros Hurl. pose proof (scrape_page_returns url w Hurl) as H.
  destruct (scrape_page_try url w) as [[e|r] w1] eqn:Htry.
  - eexists; eexists; split; [exact H|reflexivity].
  - exists r, w1. split; [exact H|].
    destruct (scrape_page_try_inv url w r w1 Htry)
      as (_ & soup & w2 & ps & w3 & t & _ & ->).
    reflexivity.
Qed.

(** the loop over a list of URLs of which the first that pydantic
    rejects is [url]: the pages before it get their results, and the
    [except] block of [url] raises *)
Lemma scrape_pages_rejected (before : list str) (url : str) (after : list str) :
  Forall (fun u => is_http_url u = true) before ->
  is_http_url url = false ->
  forall (acc : list ScrapingResult) (w : World),
  exists msg w',
    scrape_pages (before ++ url :: after) acc w =
      (inl (ValidationError msg), w').
Proof.
  intros Hbefore Hurl.
  induction Hbefore as [|u us Hu _ IH]; intros acc w; cbn [app scrape_pages].
  - destruct (scrape_page_raises url w Hurl) as (msg & w1 & ->).
    unfold bind.
    destruct (failed_result_raises url (ValidationError msg) w1 Hurl)
      as (msg' & w2 & ->).
    eauto.
  - destruct (scrape_page_total u w Hu) as (r & w1 & -> & _).
    destruct (asyncio_sleep w1) as [[e|[]] w2].
    + unfold bind. rewrite (failed_result_ok u e w2 Hu). apply IH.
    + apply IH.
Qed.

(** C6 fails in the program.  When one of the URLs is not an [HttpUrl]
    for pydantic, while the URLs before it are, [scrape_multiple_pages]
    returns no result at all: the [except] block that should turn the
    failure of that page into a failed result builds a
    [ScrapingResult] with the same URL and raises the validation error
    again, which ends the loop, whatever the pages hold and whichever
    URLs follow. *)
Theorem rejected_url_ends_batch
        (before : list str) (url : str) (after : list str) (w : World) :
  Forall (fun u => is_http_url u = true) before ->
  is_http_url url = false ->
  exists msg w',
    scrape_multiple_pages (before ++ url :: after) w =
      (inl (ValidationError msg), w').
Proof.
  intros Hbefore Hurl. unfold scrape_multiple_pages.
  now apply scrape_pages_rejected.
Qed.

(** a sleep that raises after a page has its result leaves two results
    for that page: the one appended before the sleep, and the failed
    one of the [except] block *)
Lemma raising_sleep_doubles_result (url : str) (rest : list str) (w : World)
      (r : ScrapingResult) (w1 : World) (e : exn) (w2 : World) :
  is_http_url url = true ->
  scrape_page url w = (inr r, w1) ->
  asyncio_sleep w1 = (inl e, w2) ->
  scrape_multiple_pages (url :: rest) w =
  scrape_pages rest
    [r; mkScrapingResult false [] 0 url (fst (datetime_now w2))
                         (Some (str_of_exn e))]
    (snd (datetime_now w2)).
Proof.
  intros Hurl Hpage Hsleep. unfold scrape_multiple_pages.
  cbn [scrape_pages]. rewrite Hpage, Hsleep. unfold bind.
  rewrite (failed_result_ok url e w2 Hurl). reflexivity.
Qed.

End Orchestrator.

(** ** The factory and the start of a run *)

Section Startup.
Context {C : Collaborators}.
Open Scope monad_scope.

(** what the command line lets through, the factory knows *)
Lemma database_choices_supported (db_type : str) :
  In db_type database_choices ->
  exists m, DatabaseFactory.create_manager db_type = inr m.
Proof.
  intros [<-|[<-|[]]]; eexists; reflexivity.
Qed.

Lemma create_manager_unsupported (db_type : str) :
  Py.lower db_type <> lit "postgresql" ->
  Py.lower db_type <> lit "mongodb" ->
  exists msg, DatabaseFactory.create_manager db_type = inl (ValueError msg).
Proof.
  intros Hpg Hmongo. unfold DatabaseFactory.create_manager.
  apply py_eqb_neq in Hpg, Hmongo. rewrite Hpg, Hmongo.
  eexists. reflexivity.
Qed.

(** C2, as the program has it.  For every tag that is neither
    'postgresql' nor 'mongodb' once lowered, the factory raises a
    [ValueError]; [initialize] catches it and leaves the crawler without
    a manager; and [run] goes on: it scrapes the URLs and hands the
    results to [save_results], which then writes the file only. *)
Theorem unsupported_backend_is_absorbed
        (use_playwright : bool) (db_type : str) (urls : list str)
        (w : World) :
  Py.lower db_type <> lit "postgresql" ->
  Py.lower db_type <> lit "mongodb" ->
  (exists msg, DatabaseFactory.create_manager db_type = inl (ValueError msg)) /\
  initialize db_type w = (inr None, w) /\
  run use_playwright db_type urls w =
  (results <- scrape_urls use_playwright urls ;;
   save_results None results ;;;
   ret (None, results)) w.
Proof.
  intros Hpg Hmongo.
  destruct (create_manager_unsupported db_type Hpg Hmongo) as [msg Hmsg].
  assert (Hinit : initialize db_type w = (inr None, w)).
  { unfold initialize, try_except, bind, lift_factory. rewrite Hmsg. reflexivity. }
  split; [eauto|]. split; [exact Hinit|].
  unfold run. rewrite Hinit. unfold try_finally, cleanup, bind.
  destruct (scrape_urls use_playwright urls w) as [[e|results] w1]; [reflexivity|].
  destruct (save_results None results w1) as [[e|[]] w2]; reflexivity.
Qed.

End Startup.

(** ** Storage: queries *)

Section Ordering.
Context {A : Type} (first : A -> A -> bool) (key : A -> Z).

Lemma insert_desc_perm (x : A) (l : list A) :
  Permutation (insert_desc first key x l) (x :: l).
Proof.
  induction l as [|y r IH]; cbn; [reflexivity|].
  destruct (key x <? key y)%Z; [rewrite IH; apply perm_swap|].
  destruct (key y <? key x)%Z; [reflexivity|].
  destruct (first x y); [reflexivity|].
  rewrite IH. apply perm_swap.
Qed.

Lemma sort_desc_perm (l : list A) : Permutation (sort_desc first key l) l.
Proof.
  induction l as [|x r IH]; cbn; [reflexivity|].
  rewrite insert_desc_perm. now constructor.
Qed.

Lemma insert_desc_sorted (x : A) (l : list A) :
  descending (map key l) -> descending (map key (insert_desc first key x l)).
Proof.
  unfold descending. induction l as [|y r IH]; cbn; intros Hs.
  - repeat constructor.
  - inversion Hs as [|? ? Hr Hy]; subst.
    assert (Hafter : (key x <= key y)%Z ->
              StronglySorted (fun a b => (b <= a)%Z)
                (key y :: map key (insert_desc first key x r))).
    { intros Hle. constructor; [now apply IH|].
      rewrite Forall_forall. intros k Hk.
      apply (Permutation_in _ (Permutation_map key (insert_desc_perm x r))) in Hk.
      cbn in Hk. destruct Hk as [<-|Hk]; [exact Hle|].
      rewrite Forall_forall in Hy. now apply Hy. }
    assert (Hbefore : (key y <= key x)%Z ->
              StronglySorted (fun a b => (b <= a)%Z)
                (key x :: key y :: map key r)).
    { intros Hle. constructor; [exact Hs|].
      constructor; [exact Hle|].
      rewrite Forall_forall in Hy |- *. intros k Hk.
      specialize (Hy k Hk). lia. }
    destruct (key x <? key y)%Z eqn:Hlt.
    + apply Z.ltb_lt in Hlt. cbn. apply Hafter. lia.
    + apply Z.ltb_ge in Hlt.
      destruct (key y <? key x)%Z eqn:Hgt.
      * cbn. now apply Hbefore.
      * apply Z.ltb_ge in Hgt.
        destruct (first x y); cbn; [now apply Hbefore|apply Hafter; lia].
Qed.

Lemma sort_desc_sorted (l : list A) :
  descending (map key (sort_desc first key l)).
Proof.
  induction l as [|x r IH]; cbn; [constructor|].
  now apply insert_desc_sorted.
Qed.

End Ordering.

(** two descending arrangements of the same numbers are the same list *)
Lemma descending_unique (l l' : list Z) :
  Permutation l l' -> descending l -> descending l' -> l = l'.
Proof.
  revert l'. induction l as [|x r IH]; intros l' Hperm Hd Hd'.
  - apply Permutation_nil in Hperm. now subst.
  - destruct l' as [|y r'];
      [apply Permutation_sym, Permutation_nil in Hperm; discriminate|].
    inversion Hd as [|? ? Hr Hx]; subst.
    inversion Hd' as [|? ? Hr' Hy]; subst.
    assert (Hxy : x = y).
    { assert (Hin : In x (y :: r')) by (apply (Permutation_in _ Hperm); now left).
      assert (Hin' : In y (x :: r))
        by (apply (Permutation_in _ (Permutation_sym Hperm)); now left).
      rewrite Forall_forall in Hx, Hy.
      destruct Hin as [->|Hin]; [reflexivity|].
      destruct Hin' as [->|Hin']; [reflexivity|].
      specialize (Hy x Hin). specialize (Hx y Hin'). lia. }
    subst y. f_equal. apply IH; [|assumption|assumption].
    now apply Permutation_cons_inv in Hperm.
Qed.

(** the timestamps an [ORDER BY] returns do not depend on how the
    server orders rows of equal timestamp *)
Lemma sort_desc_keys {A} (first first' : A -> A -> bool) (key : A -> Z)
      (l : list A) :
  map key (sort_desc first key l) = map key (sort_desc first' key l).
Proof.
  apply descending_unique; try apply sort_desc_sorted.
  apply Permutation_map.
  rewrite sort_desc_perm. symmetry. apply sort_desc_perm.
Qed.

Section Queries.
Context {PT : PostgreSQLManager.tie_order} {MT : MongoDBManager.tie_order}.

(** C10. In both backends [get_products] with [limit=0] is
    [get_products] without a limit, whatever the state; on a healthy
    connection, and on any collection, it returns every stored row,
    ordered by [scraped_at] from the most recent. *)
Theorem limit_zero_is_no_limit
        (c : PostgreSQLManager.connection) (t : PostgreSQLManager.table)
        (coll : MongoDBManager.collection) :
  PostgreSQLManager.get_products (Some 0%Z) c =
    PostgreSQLManager.get_products None c /\
  MongoDBManager.get_products (Some 0%Z) coll =
    MongoDBManager.get_products None coll /\
  Permutation
    (fst (PostgreSQLManager.get_products (Some 0%Z)
            (PostgreSQLManager.mkConnection (Some t) false)))
    (PostgreSQLManager.rows t) /\
  Permutation (MongoDBManager.get_products (Some 0%Z) coll)
              (MongoDBManager.documents coll) /\
  (length (fst (PostgreSQLManager.get_products (Some 0%Z)
                  (PostgreSQLManager.mkConnection (Some t) false))) =
   length (PostgreSQLManager.rows t)) /\
  length (MongoDBManager.get_products (Some 0%Z) coll) =
  length (MongoDBManager.documents coll).
Proof.
  assert (Hpg : Permutation
    (fst (PostgreSQLManager.get_products (Some 0%Z)
            (PostgreSQLManager.mkConnection (Some t) false)))
    (PostgreSQLManager.rows t)) by apply sort_desc_perm.
  assert (Hmongo : Permutation (MongoDBManager.get_products (Some 0%Z) coll)
                               (MongoDBManager.documents coll))
    by apply sort_desc_perm.
  repeat split; try reflexivity; try assumption.
  - now apply Permutation_length.
  - now apply Permutation_length.
Qed.

End Queries.

(** ** Storage: batches *)

(** a failed [execute_all] leaves a table with the indexes it started
    from; only rows and sequence may have moved *)
Lemma execute_all_failure_position
      (ts : Z) (products : list ProductData) :
  forall (t : PostgreSQLManager.table) (e : exn) (t' : PostgreSQLManager.table),
    PostgreSQLManager.execute_all ts products t = inl (e, t') ->
    exists done failing rest,
      products = done ++ failing :: rest /\
      PostgreSQLManager.execute_all ts done t = inr t' /\
      PostgreSQLManager.execute_insert ts failing t' = inl e.
Proof.
  induction products as [|p ps IH]; intros t e t' H; cbn in H; [discriminate|].
  destruct (PostgreSQLManager.execute_insert ts p t) as [e0|t1] eqn:Hp.
  - injection H as <- <-. exists [], p, ps. auto.
  - destruct (IH t1 e t' H) as (done & failing & rest & -> & Hdone & Hfail).
    exists (p :: done), failing, rest. cbn. rewrite Hp. auto.
Qed.

Lemma update_all_failure_position (docs : list ProductData) :
  forall (c : MongoDBManager.collection) (e : exn) (c' : MongoDBManager.collection),
    MongoDBManager.update_all docs c = inl (e, c') ->
    exists done failing rest,
      docs = done ++ failing :: rest /\
      MongoDBManager.update_all done c = inr c' /\
      MongoDBManager.bson_encodable failing = false.
Proof.
  induction docs as [|d ds IH]; intros c e c' H; cbn in H; [discriminate|].
  destruct (MongoDBManager.update_one d c) as [e0|c1] eqn:Hd.
  - injection H as <- <-. exists [], d, ds. repeat split.
    unfold MongoDBManager.update_one in Hd.
    destruct (MongoDBManager.bson_encodable d); [|reflexivity].
    cbn in Hd. destruct (MongoDBManager.set_first_match d _); discriminate.
  - destruct (IH c1 e c' H) as (done & failing & rest & -> & Hdone & Hfail).
    exists (d :: done), failing, rest. cbn. rewrite Hd. auto.
Qed.

Section Batches.
Context {PT : PostgreSQLManager.tie_order}.

(** C4, as the program has it.  In PostgreSQL a batch is all or
    nothing: when [save_products] returns failure the table holds the
    rows it held before the call, and a query that follows returns
    them.  In MongoDB it is not: when [save_products] returns failure,
    the documents before the first one that could not be written have
    been written one by one and stay in the collection. *)
Theorem batch_failure
        (ts : Z) (products : list ProductData)
        (c : PostgreSQLManager.connection) (coll : MongoDBManager.collection) :
  (fst (PostgreSQLManager.save_products ts products c) = false ->
   let c' := snd (PostgreSQLManager.save_products ts products c) in
   option_map PostgreSQLManager.rows (PostgreSQLManager.products_table c') =
   option_map PostgreSQLManager.rows (PostgreSQLManager.products_table c) /\
   forall t, PostgreSQLManager.products_table c = Some t ->
     fst (PostgreSQLManager.get_products None c') =
     sort_desc (PostgreSQLManager.comes_first None)
               (fun r => scraped_at (PostgreSQLManager.row_data r))
               (PostgreSQLManager.rows t)) /\
  (fst (MongoDBManager.save_products products coll) = false ->
   exists done failing rest,
     products = done ++ failing :: rest /\
     MongoDBManager.bson_encodable failing = false /\
     MongoDBManager.update_all done coll =
       inr (snd (MongoDBManager.save_products products coll))).
Proof.
  split.
  - unfold PostgreSQLManager.save_products.
    destruct products as [|p ps]; [discriminate|].
    destruct (PostgreSQLManager.in_failed_transaction c).
    + cbn. intros _. split; [reflexivity|].
      intros t ->. reflexivity.
    + destruct (PostgreSQLManager.products_table c) as [t|] eqn:Ht.
      * destruct (PostgreSQLManager.execute_all ts (p :: ps) t) as [[e t']|t'];
          [|discriminate].
        cbn. intros _. split; [reflexivity|].
        intros t0 H0. injection H0 as <-. reflexivity.
      * cbn. intros _. split; [reflexivity|]. discriminate.
  - unfold MongoDBManager.save_products.
    destruct products as [|p ps]; [discriminate|].
    destruct (MongoDBManager.update_all (p :: ps) coll) as [[e c1]|c1] eqn:Hall;
      [|discriminate].
    intros _. cbn [snd].
    destruct (update_all_failure_position _ _ _ _ Hall)
      as (done & failing & rest & Hsplit & Hdone & Hbad).
    exists done, failing, rest. auto.
Qed.

(** C1 on the database the program sets up.  After [connect] has
    created the [products] table, every [save_products] of a batch that
    is not empty fails: the table has no unique index on
    [(name, source_url)] for [ON CONFLICT] to rely on.  The call returns
    failure and the table stays empty. *)
Theorem postgres_upsert_is_rejected
        (ts : Z) (product : ProductData) (products : list ProductData) :
  let c := PostgreSQLManager.connect None in
  PostgreSQLManager.has_arbiter
    [PostgreSQLManager.col_name; PostgreSQLManager.col_source_url]
    (match PostgreSQLManager.products_table c with
     | Some t => t
     | None => PostgreSQLManager.new_products_table
     end) = false /\
  fst (PostgreSQLManager.save_products ts (product :: products) c) = false /\
  fst (PostgreSQLManager.get_products None
         (snd (PostgreSQLManager.save_products ts (product :: products) c))) = [].
Proof.
  cbn. auto.
Qed.

End Batches.

(** ** Storage: the upsert in each backend *)

(** MongoDB does what the upsert is meant to do: a record saved twice,
    or followed by another with its key, leaves one document, with the
    fields of the second call *)
Lemma mongo_upsert_twice (r1 r2 : ProductData) :
  same_key r1 r2 = true ->
  MongoDBManager.bson_encodable r1 = true ->
  MongoDBManager.bson_encodable r2 = true ->
  MongoDBManager.connect (inr empty_collection) = inr fresh_collection /\
  let c0 := fresh_collection in
  let c1 := snd (MongoDBManager.save_products [r1] c0) in
  let c2 := snd (MongoDBManager.save_products [r2] c1) in
  fst (MongoDBManager.save_products [r1] c0) = true /\
  fst (MongoDBManager.save_products [r2] c1) = true /\
  map MongoDBManager.fields (MongoDBManager.documents c2) = [r2].
Proof.
  intros Hkey H1 H2. split; [reflexivity|]. cbn.
  unfold MongoDBManager.update_one. rewrite H1. cbn.
  unfold MongoDBManager.update_one. rewrite H2. cbn.
  rewrite Hkey. cbn. auto.
Qed.

Lemma varchar_fits (n : nat) (s : str) :
  PostgreSQLManager.varchar_ok n s = true ->
  PostgreSQLManager.varchar n s = Some s.
Proof.
  unfold PostgreSQLManager.varchar_ok, PostgreSQLManager.varchar.
  intros H. apply Nat.leb_le in H.
  rewrite (skipn_all2 s H), (firstn_all2 s H). reflexivity.
Qed.

Lemma opt_varchar_fits (n : nat) (o : option str) :
  PostgreSQLManager.opt_varchar_ok n o = true ->
  PostgreSQLManager.opt_varchar n o = Some o.
Proof.
  destruct o as [s|]; cbn; [|reflexivity].
  intros H. now rewrite (varchar_fits n s H).
Qed.

(** a record that fits the columns is stored as it is *)
Lemma stored_fits (p : ProductData) :
  PostgreSQLManager.row_fits p = true -> PostgreSQLManager.stored p = Some p.
Proof.
  unfold PostgreSQLManager.row_fits, PostgreSQLManager.stored,
         PostgreSQLManager.integer_ok.
  rewrite !andb_true_iff.
  intros [[[[[[[Hn Hu] Hv] Hc] Hm] Hcat] Hi] Hs].
  rewrite (varchar_fits _ _ Hn), (opt_varchar_fits _ _ Hu),
          (opt_varchar_fits _ _ Hm), (opt_varchar_fits _ _ Hcat),
          (opt_varchar_fits _ _ Hi), (varchar_fits _ _ Hs), Hv, Hc.
  now destruct p.
Qed.

(** so does PostgreSQL once the table has the unique constraint the
    statement relies on; the fields outside [DO UPDATE SET] keep the
    values of the first call *)
Lemma postgres_upsert_twice_with_constraint (ts1 ts2 : Z) (r1 r2 : ProductData) :
  same_key r1 r2 = true ->
  PostgreSQLManager.row_fits r1 = true ->
  PostgreSQLManager.row_fits r2 = true ->
  let c0 := PostgreSQLManager.connect (Some keyed_products_table) in
  let c1 := snd (PostgreSQLManager.save_products ts1 [r1] c0) in
  let c2 := snd (PostgreSQLManager.save_products ts2 [r2] c1) in
  fst (PostgreSQLManager.save_products ts1 [r1] c0) = true /\
  fst (PostgreSQLManager.save_products ts2 [r2] c1) = true /\
  option_map (fun t => map PostgreSQLManager.row_data (PostgreSQLManager.rows t))
             (PostgreSQLManager.products_table c2) =
  Some [mkProductData (name r1) (tagline r2) (description r2) (url r1)
                      (votes r2) (comments r2) (maker r1) (category r1)
                      (launch_date r1) (image_url r1) (scraped_at r1)
                      (source_url r1)].
Proof.
  intros Hkey H1 H2. cbn.
  unfold PostgreSQLManager.execute_insert. cbn.
  rewrite (stored_fits r1 H1). cbn.
  unfold PostgreSQLManager.execute_insert. cbn.
  rewrite (stored_fits r2 H2). cbn.
  rewrite Hkey. cbn. auto.
Qed.



Lemma same_key_eq (p q : ProductData) :
  same_key p q = true -> name p = name q /\ source_url p = source_url q.
Proof.
  unfold same_key. rewrite andb_true_iff, !py_eqb_eq. auto.
Qed.









Section Equivalence.
Context {PT : PostgreSQLManager.tie_order} {MT : MongoDBManager.tie_order}.


End Equivalence.

(** * The statements on concrete inputs *)

Module Concrete.

Import Example.

(** C7 on the page of headings and paragraphs *)
Lemma parse_products_without_container_witness :
  (Bs4.find_all (Bs4.NameIs (lit "div"))
     [(lit "data-test", Bs4.AttrEq (lit "product-item"))] plain_page = [] /\
   Bs4.find_all (Bs4.NameIs (lit "div"))
     [(lit "class", class_has (C := collaborators) [lit "product"])]
     plain_page = [] /\
   Bs4.find_all (Bs4.NameIs (lit "article")) [] plain_page = [] /\
   Bs4.find_all (Bs4.NameIs (lit "div"))
     [(lit "class",
       class_has (C := collaborators) [lit "card"; lit "item"; lit "post"])]
     plain_page = []) /\
  _parse_products (C := collaborators) plain_page
                  (lit "https://example.test/plain") world0 = (inr [], world0).
Proof.
  split; [repeat split|].
  apply (parse_products_without_container (C := collaborators));
    reflexivity.
Defined.

(** C8 in the concrete world *)
Lemma widget_scenario_witness :
  (http_url (lit "https://example.test/") = true /\
   http_url (lit "https://example.test/w/1") = true /\
   join_url (lit "https://example.test/") (lit "/w/1") =
     lit "https://example.test/w/1") /\
  Forall (fun page =>
            exists p w',
              _parse_products (C := collaborators) page
                              (lit "https://example.test/") world0
                = (inr [p], w') /\
              name p = lit "Widget X" /\
              tagline p = lit "Makes widgets fast" /\
              url p = Some (lit "https://example.test/w/1") /\
              votes p = Some 42%Z /\
              source_url p = lit "https://example.test/")
         widget_pages.
Proof.
  split; [repeat split|].
  apply (widget_scenario (C := collaborators) world0); reflexivity.
Defined.





(** C6 fails on three URLs of which the second is served by the local
    host: its page is fetched and holds a product, and the batch ends
    with the validation error of its result *)
Lemma rejected_url_ends_batch_witness :
  (Forall (fun u => http_url u = true) [lit "https://example.test/"] /\
   http_url (lit "http://localhost:8000/") = false) /\
  (exists r w',
     scrape_page_try (C := collaborators) (lit "https://example.test/") world0
       = (inr r, w')) /\
  exists msg w',
    scrape_multiple_pages (C := collaborators)
      ([lit "https://example.test/"] ++
       lit "http://localhost:8000/" :: [lit "https://example.test/plain"])
      world0 = (inl (ValidationError msg), w').
Proof.
  assert (Hbefore : Forall (fun u => http_url u = true)
                           [lit "https://example.test/"])
    by (repeat constructor).
  split; [split; [exact Hbefore|reflexivity]|].
  split; [eexists; eexists; reflexivity|].
  exact (rejected_url_ends_batch (C := collaborators)
           [lit "https://example.test/"] (lit "http://localhost:8000/")
           [lit "https://example.test/plain"] world0 Hbefore eq_refl).
Defined.

(** with a delay the sleep does not take, one URL gets two results *)
Lemma raising_sleep_doubles_result_example :
  exists r1 r2 w',
    scrape_multiple_pages (C := restless) [lit "https://example.test/"] world0
      = (inr [r1; r2], w') /\
    page_url r1 = lit "https://example.test/" /\
    page_url r2 = lit "https://example.test/".
Proof. eexists. eexists. eexists. repeat split. Qed.

(** C2, as the program has it, for the tag 'sqlite' *)
Lemma unsupported_backend_is_absorbed_witness :
  (Py.lower (C := collaborators) (lit "sqlite") <> lit "postgresql" /\
   Py.lower (C := collaborators) (lit "sqlite") <> lit "mongodb") /\
  (exists msg,
     DatabaseFactory.create_manager (C := collaborators) (lit "sqlite")
       = inl (ValueError msg)) /\
  initialize (C := collaborators) (lit "sqlite") world0 = (inr None, world0).
Proof.
  assert (Hpg : Py.lower (C := collaborators) (lit "sqlite") <> lit "postgresql")
    by (intros H; vm_compute in H; discriminate H).
  assert (Hmongo : Py.lower (C := collaborators) (lit "sqlite") <> lit "mongodb")
    by (intros H; vm_compute in H; discriminate H).
  split; [split; assumption|].
  destruct (unsupported_backend_is_absorbed (C := collaborators) true
              (lit "sqlite") [lit "https://example.test/"] world0 Hpg Hmongo)
    as (Hfactory & Hinit & _).
  split; assumption.
Defined.

(** C2 as stated fails: a run started with the tag 'sqlite' does not
    stop at startup; it scrapes the page and exports the record *)
Lemma unsupported_backend_run_continues :
  exists results w',
    run (C := collaborators) true (lit "sqlite") [lit "https://example.test/"]
        world0 = (inr (None, results), w') /\
    map success results = [true] /\
    map page_url results = [lit "https://example.test/"] /\
    map (map name) (exported w') = [[lit "Widget X"]].
Proof. eexists. eexists. repeat split. Defined.



(** C4, as the program has it, on a batch whose second record has a
    vote count no column and no BSON integer can hold *)
Lemma batch_failure_witness :
  let batch := [widget_v1; crowded; gadget] in
  let c := PostgreSQLManager.connect (Some keyed_products_table) in
  let coll := fresh_collection in
  (fst (PostgreSQLManager.save_products 1 batch c) = false /\
   fst (MongoDBManager.save_products batch coll) = false) /\
  fst (PostgreSQLManager.get_products (T := pg_order) None
         (snd (PostgreSQLManager.save_products 1 batch c))) = [] /\
  exists done failing rest,
    batch = done ++ failing :: rest /\
    MongoDBManager.bson_encodable failing = false /\
    MongoDBManager.update_all done coll =
      inr (snd (MongoDBManager.save_products batch coll)).
Proof.
  intros batch c coll.
  destruct (batch_failure (PT := pg_order) 1 batch c coll) as [Hpg Hmongo].
  split; [split; reflexivity|]. split.
  - destruct (Hpg eq_refl) as [_ Hquery].
    exact (Hquery _ eq_refl).
  - exact (Hmongo eq_refl).
Defined.

(** C4 as stated fails for MongoDB: the batch is refused at its second
    record, the call returns failure, and the first record is in the
    collection for the next query to return *)
Lemma mongo_partial_batch :
  let batch := [widget_v1; crowded; gadget] in
  let coll := fresh_collection in
  MongoDBManager.connect (inr empty_collection) = inr coll /\
  votes crowded = Some 100000000000000000000%Z /\
  MongoDBManager.get_products (T := mongo_order) None coll = [] /\
  fst (MongoDBManager.save_products batch coll) = false /\
  map MongoDBManager.fields
      (MongoDBManager.get_products (T := mongo_order) None
         (snd (MongoDBManager.save_products batch coll))) = [widget_v1].
Proof. repeat split. Defined.

End Concrete.

(** * Further properties of the code *)

(** ** [_extract_number] *)

Lemma digit_val_nonneg (c : N) : (0 <= Py.digit_val c)%Z.
Proof. unfold Py.digit_val. destruct (Py.decimal c); lia. Qed.

Lemma int_acc_nonneg (s : str) :
  forall acc : Z, (0 <= acc)%Z -> (0 <= Py.int_acc acc s)%Z.
Proof.
  induction s as [|c r IH]; intros acc Hacc; cbn [Py.int_acc]; [exact Hacc|].
  apply IH. pose proof (digit_val_nonneg c). lia.
Qed.

Lemma extract_number_nonneg (text : str) : (0 <= _extract_number text)%Z.
Proof.
  unfold _extract_number. destruct (Py.first_digits text); [|lia].
  apply int_acc_nonneg. lia.
Qed.

Lemma first_digits_no_digit (s : str) :
  no_digit s = true -> Py.first_digits s = None.
Proof.
  induction s as [|c r IH]; cbn [no_digit Py.first_digits]; [reflexivity|].
  destruct (Py.is_digit c); cbn; [discriminate|exact IH].
Qed.

Lemma first_digits_skip (pre s : str) :
  no_digit pre = true -> Py.first_digits (pre ++ s) = Py.first_digits s.
Proof.
  induction pre as [|c r IH]; cbn [no_digit Py.first_digits app]; [reflexivity|].
  destruct (Py.is_digit c); cbn; [discriminate|exact IH].
Qed.

Lemma digit_run_app (ds post : str) :
  all_digits ds = true -> starts_with_digit post = false ->
  Py.digit_run (ds ++ post) = ds.
Proof.
  intros Hds Hpost. induction ds as [|c r IH];
    cbn [all_digits Py.digit_run app] in *.
  - destruct post as [|c r]; cbn [starts_with_digit Py.digit_run] in *;
      [reflexivity|]. now rewrite Hpost.
  - apply andb_true_iff in Hds. destruct Hds as [Hc Hr].
    rewrite Hc. now rewrite IH.
Qed.

Lemma decimal_in_digit (zeros : list N) (c v : N) :
  Py.decimal_in zeros c = Some v -> (v <= 9)%N.
Proof.
  induction zeros as [|z r IH]; cbn [Py.decimal_in]; [discriminate|].
  destruct ((z <=? c) && (c <? z + 10))%N eqn:Hz; [|exact IH].
  apply andb_true_iff in Hz. destruct Hz as [Hlo Hhi].
  apply N.leb_le in Hlo. apply N.ltb_lt in Hhi.
  intros H. injection H as <-. lia.
Qed.

(** a string whose characters have the decimal values [vs] *)
Lemma decimals_all_digits (ds : str) :
  forall vs : list N,
    map Py.decimal ds = map Some vs ->
    all_digits ds = true /\ Forall (fun v => (v <= 9)%N) vs /\
    forall acc : Z,
      Py.int_acc acc ds =
      fold_left (fun a d => (10 * a + Z.of_N d)%Z) vs acc.
Proof.
  induction ds as [|c r IH]; intros [|v vs] H; cbn [map] in H; try discriminate.
  - repeat split. constructor.
  - injection H as Hc Hr. destruct (IH vs Hr) as (Hall & Hvs & Hint).
    cbn [all_digits Py.int_acc fold_left]. unfold Py.is_digit, Py.digit_val.
    rewrite Hc. split; [exact Hall|]. split.
    + constructor; [|exact Hvs]. exact (decimal_in_digit _ _ _ Hc).
    + intros acc. apply Hint.
Qed.

(** X1. Only the first run of digits counts, and its digits may be
    those of any script: in a text made of a part without decimal
    digits, a run of characters that are decimal digits of values [vs]
    and a rest that does not go on with a digit, the number extracted
    is the number [vs] writes in base ten, whatever digits the rest
    holds.  The run has at most 640 digits, which the interpreter
    converts whatever limit it is set to. *)
Theorem extract_number_first_run (pre ds post : str) (vs : list N) :
  no_digit pre = true ->
  ds <> [] ->
  map Py.decimal ds = map Some vs ->
  starts_with_digit post = false ->
  (length ds <= 640)%nat ->
  _extract_number (pre ++ ds ++ post) = value_of_digits vs /\
  Forall (fun v => (v <= 9)%N) vs.
Proof.
  intros Hpre Hne Hds Hpost _.
  destruct (decimals_all_digits ds vs Hds) as (Hall & Hvs & Hint).
  split; [|exact Hvs].
  unfold _extract_number.
  rewrite (first_digits_skip pre _ Hpre).
  destruct ds as [|c r]; [contradiction|].
  pose proof Hall as Hall'.
  cbn [all_digits] in Hall'. apply andb_true_iff in Hall'.
  destruct Hall' as [Hc Hr].
  cbn [app Py.first_digits]. rewrite Hc.
  change (c :: r ++ post) with ((c :: r) ++ post).
  rewrite (digit_run_app (c :: r) post Hall Hpost).
  apply Hint.
Qed.

(** X2. The number extracted is never negative, and it is 0 for a text
    that holds no decimal digit of any script. *)
Theorem extract_number_bounds (text : str) :
  (0 <= _extract_number text)%Z /\
  (no_digit text = true -> _extract_number text = 0%Z).
Proof.
  split; [apply extract_number_nonneg|].
  intros H. unfold _extract_number. now rewrite first_digits_no_digit.
Qed.

(** ** [_extract_product_data] and [_parse_products] *)

Section Containers.
Context {C : Collaborators}.

(** X3. A container gives no record when none of the four name
    selectors finds an element, and also when the first of them that
    finds one finds an element without text: an empty [h3] hides an
    [h2] that has a name.  The clock is not read. *)
Theorem container_without_name_is_dropped
        (item : PageElement) (source_url : str) (w : World) :
  (Bs4.find (Bs4.NameIs (lit "h3")) [] item = None /\
   Bs4.find (Bs4.NameIs (lit "h2")) [] item = None /\
   Bs4.find (Bs4.NameIs (lit "a"))
     [(lit "class", class_has [lit "name"])] item = None /\
   Bs4.find (Bs4.NameIs (lit "div"))
     [(lit "class", class_has [lit "title"])] item = None) \/
  (exists e,
     Py.opt_or (Bs4.find (Bs4.NameIs (lit "h3")) [] item)
    (Py.opt_or (Bs4.find (Bs4.NameIs (lit "h2")) [] item)
    (Py.opt_or (Bs4.find (Bs4.NameIs (lit "a"))
                  [(lit "class", class_has [lit "name"])] item)
               (Bs4.find (Bs4.NameIs (lit "div"))
                  [(lit "class", class_has [lit "title"])] item))) = Some e /\
     Bs4.get_text_strip e = []) ->
  _extract_product_data item source_url w = (inr None, w).
Proof.
  intros H. rewrite _extract_product_data_eq.
  assert (Hname : name_of item = []).
  { unfold name_of, name_elem_of. destruct H as [(H3 & H2 & Ha & Hd)|(e & He & Ht)].
    - now rewrite H3, H2, Ha, Hd.
    - rewrite He. exact Ht. }
  now rewrite Hname.
Qed.






End Containers.

(** ** The results of a page *)

Section Outcomes.
Context {C : Collaborators}.
Open Scope monad_scope.

Lemma failed_result_invariant (url : str) (e : exn) (t : Z) :
  outcome_invariant url
    (mkScrapingResult false [] 0 url t (Some (str_of_exn e))).
Proof.
  repeat split; cbn; try discriminate. eauto.
Qed.

Lemma successful_result_invariant (url : str) (ps : list ProductData) (t : Z) :
  outcome_invariant url (mkScrapingResult true ps (length ps) url t None).
Proof.
  repeat split; cbn; discriminate.
Qed.



Lemma requests_try_inv (url : str) (w : World)
      (r : ScrapingResult) (w' : World) :
  (soup <- requests_get url ;;
   products <- _parse_products_simple soup url ;;
   time_sleep ;;;
   t <- now ;;
   new_ScrapingResult true products (length products) url t None) w
  = (inr r, w') ->
  is_http_url url = true.
Proof.
  unfold bind, now.
  destruct (requests_get url w) as [[e|soup] w1]; [discriminate|].
  destruct (_parse_products_simple soup url w1) as [[e|ps] w2]; [discriminate|].
  destruct (time_sleep w2) as [[e|[]] w2']; [discriminate|].
  destruct (datetime_now w2') as [t w3].
  unfold new_ScrapingResult, ret, raise.
  destruct (is_http_url url); [reflexivity|discriminate].
Qed.

(** X7. For a page URL the URL check rejects, neither scraper returns a
    failed result: whatever the page does, [scrape_page] and
    [RequestsScraper.scrape_page] raise the validation error of the
    result they try to build. *)
Theorem rejected_page_url_raises (url : str) (w : World) :
  is_http_url url = false ->
  (exists msg w', scrape_page url w = (inl (ValidationError msg), w')) /\
  (exists msg w', requests_scrape_page url w = (inl (ValidationError msg), w')).
Proof.
  intros Hurl. split.
  - now apply scrape_page_raises.
  - unfold requests_scrape_page, try_except.
    match goal with |- context [match ?m w with _ => _ end] =>
      destruct (m w) as [[e|r] w1] eqn:Htry end.
    + now apply failed_result_raises.
    + apply requests_try_inv in Htry. congruence.
Qed.




End Outcomes.

(** ** The degraded strategy on a rejected source URL *)

Section SimpleStrategyErrors.
Context {C : Collaborators}.

(** X9. With a source URL the URL check rejects,
    [_parse_products_simple] returns the empty list when none of the
    first ten headings has more than five characters, and raises a
    validation error, returning no record at all, as soon as one has. *)
Theorem rejected_source_stops_parsing
        (soup : PageElement) (source_url0 : str) (w : World) :
  is_http_url source_url0 = false ->
  (filter long_enough (firstn 10 (titles soup)) = [] ->
   _parse_products_simple soup source_url0 w = (inr [], w)) /\
  (filter long_enough (firstn 10 (titles soup)) <> [] ->
   exists msg w',
     _parse_products_simple soup source_url0 w = (inl (ValidationError msg), w')).
Proof.
  intros Hsrc. unfold _parse_products_simple.
  apply parse_titles_rejected. exact Hsrc.
Qed.

End SimpleStrategyErrors.

(** ** The crawler *)

Section CrawlerFacts.
Context {C : Collaborators}.
Open Scope monad_scope.

Lemma scrape_page_invariant (url : str) (w : World) :
  is_http_url url = true ->
  exists r w', scrape_page url w = (inr r, w') /\ outcome_invariant url r.
Proof.
  intros Hurl. pose proof (scrape_page_returns url w Hurl) as H.
  destruct (scrape_page_try url w) as [[e|r] w1] eqn:Htry.
  - eexists; eexists; split; [exact H|apply failed_result_invariant].
  - exists r, w1. split; [exact H|].
    destruct (scrape_page_try_inv url w r w1 Htry)
      as (_ & soup & w2 & ps & w3 & t & _ & ->).
    apply successful_result_invariant.
Qed.


(** with URLs the URL check accepts and a sleep that never raises,
    [scrape_multiple_pages] does return one result per URL, in the
    order of the URLs, whichever pages fail *)
Lemma scrape_pages_one_each (urls : list str) :
  Forall (fun url => is_http_url url = true) urls ->
  (forall w0, exists w1, asyncio_sleep w0 = (inr tt, w1)) ->
  forall (acc : list ScrapingResult) (w : World),
  exists results w',
    scrape_pages urls acc w = (inr (acc ++ results), w') /\
    Forall2 outcome_invariant urls results.
Proof.
  intros Hurls Hsleep.
  induction Hurls as [|url rest Hurl _ IH]; intros acc w.
  - exists [], w. cbn. rewrite app_nil_r. split; [reflexivity|constructor].
  - cbn [scrape_pages].
    destruct (scrape_page_invariant url w Hurl) as (r & w1 & -> & Hr).
    destruct (Hsleep w1) as [w2 ->].
    destruct (IH (acc ++ [r]) w2) as (rs & w3 & Hrun & Hall).
    exists (r :: rs), w3. rewrite Hrun, <- app_assoc.
    split; [reflexivity|now constructor].
Qed.





(** a list of results with nothing to save *)
Lemma all_products_of_nothing (results : list ScrapingResult) :
  Forall (fun r => success r = false \/ products r = []) results ->
  all_products_of results = [].
Proof.
  induction 1 as [|r rest [Hfail|Hnone] _ IH]; cbn; [reflexivity| |].
  - now rewrite Hfail.
  - rewrite Hnone, IH. now destruct (success r).
Qed.

(** X11. When no result holds a product, every page having failed or
    come back empty, [save_results] does nothing at all: the database
    is not called and no file is written, whether or not the crawler
    has a manager. *)
Theorem nothing_to_save (db_manager : option DatabaseManager)
        (results : list ScrapingResult) (w : World) :
  Forall (fun r => success r = false \/ products r = []) results ->
  save_results db_manager results w = (inr tt, w).
Proof.
  intros H. unfold save_results. now rewrite (all_products_of_nothing results H).
Qed.


End CrawlerFacts.

(** ** PostgreSQL: the schema [connect] leaves *)

Lemma create_index_rows (n : string) (cols : list PostgreSQLManager.column)
      (t : PostgreSQLManager.table) :
  PostgreSQLManager.rows (PostgreSQLManager.create_index_if_not_exists n cols t)
    = PostgreSQLManager.rows t.
Proof.
  unfold PostgreSQLManager.create_index_if_not_exists.
  destruct (existsb _ (PostgreSQLManager.indexes t)); auto.
Qed.

Lemma create_index_arbiter (n : string)
      (cols target : list PostgreSQLManager.column)
      (t : PostgreSQLManager.table) :
  PostgreSQLManager.has_arbiter target
    (PostgreSQLManager.create_index_if_not_exists n cols t) =
  PostgreSQLManager.has_arbiter target t.
Proof.
  unfold PostgreSQLManager.create_index_if_not_exists,
         PostgreSQLManager.has_arbiter.
  destruct (existsb _ (PostgreSQLManager.indexes t)); [reflexivity|].
  cbn [PostgreSQLManager.indexes]. rewrite existsb_app. cbn.
  now rewrite orb_false_r.
Qed.

Lemma create_index_present (n : string) (cols : list PostgreSQLManager.column)
      (t : PostgreSQLManager.table) :
  existsb (fun ix => String.eqb (PostgreSQLManager.index_name ix) n)
          (PostgreSQLManager.indexes
             (PostgreSQLManager.create_index_if_not_exists n cols t)) = true.
Proof.
  unfold PostgreSQLManager.create_index_if_not_exists.
  destruct (existsb _ (PostgreSQLManager.indexes t)) eqn:H; [exact H|].
  cbn [PostgreSQLManager.indexes]. rewrite existsb_app. cbn.
  rewrite String.eqb_refl. now rewrite orb_true_r.
Qed.

Lemma create_index_monotone (n m : string)
      (cols : list PostgreSQLManager.column) (t : PostgreSQLManager.table) :
  existsb (fun ix => String.eqb (PostgreSQLManager.index_name ix) n)
          (PostgreSQLManager.indexes t) = true ->
  existsb (fun ix => String.eqb (PostgreSQLManager.index_name ix) n)
          (PostgreSQLManager.indexes
             (PostgreSQLManager.create_index_if_not_exists m cols t)) = true.
Proof.
  intros H. unfold PostgreSQLManager.create_index_if_not_exists.
  destruct (existsb (fun ix => String.eqb (PostgreSQLManager.index_name ix) m)
                    (PostgreSQLManager.indexes t)); [exact H|].
  cbn [PostgreSQLManager.indexes]. rewrite existsb_app, H. reflexivity.
Qed.

Lemma create_index_again (n : string) (cols : list PostgreSQLManager.column)
      (t : PostgreSQLManager.table) :
  existsb (fun ix => String.eqb (PostgreSQLManager.index_name ix) n)
          (PostgreSQLManager.indexes t) = true ->
  PostgreSQLManager.create_index_if_not_exists n cols t = t.
Proof.
  intros H. unfold PostgreSQLManager.create_index_if_not_exists. now rewrite H.
Qed.

(** X13. [connect] is safe to repeat: connecting again to the database
    a first [connect] left changes nothing, and [connect] neither adds
    nor removes a row of a table that exists. *)
Theorem postgres_connect_idempotent (server : option PostgreSQLManager.table) :
  let c := PostgreSQLManager.connect server in
  PostgreSQLManager.connect (PostgreSQLManager.products_table c) = c /\
  option_map PostgreSQLManager.rows (PostgreSQLManager.products_table c) =
    Some (match server with
          | Some t => PostgreSQLManager.rows t
          | None => []
          end).
Proof.
  cbn zeta. unfold PostgreSQLManager.connect, PostgreSQLManager._create_tables.
  cbn [PostgreSQLManager.products_table].
  set (t0 := match server with
             | Some t => t
             | None => PostgreSQLManager.new_products_table
             end).
  set (t1 := PostgreSQLManager.create_index_if_not_exists
               "idx_products_name" [PostgreSQLManager.col_name] t0).
  set (t2 := PostgreSQLManager.create_index_if_not_exists
               "idx_products_scraped_at" [PostgreSQLManager.col_scraped_at] t1).
  set (t3 := PostgreSQLManager.create_index_if_not_exists
               "idx_products_votes" [PostgreSQLManager.col_votes] t2).
  split.
  - f_equal. f_equal.
    rewrite (create_index_again "idx_products_name" _ t3).
    2:{ apply create_index_monotone, create_index_monotone, create_index_present. }
    rewrite (create_index_again "idx_products_scraped_at" _ t3).
    2:{ apply create_index_monotone, create_index_present. }
    apply create_index_again, create_index_present.
  - cbn [option_map]. f_equal. unfold t3, t2, t1.
    rewrite !create_index_rows. unfold t0. now destruct server.
Qed.

(** X14. [connect] never supplies the constraint the upsert needs: on a
    database without the table, or whose table has no unique index on
    exactly [(name, source_url)], every [save_products] of a batch that
    is not empty returns failure after [connect], and the rows are those
    the table had. *)
Theorem save_needs_the_constraint
        (server : option PostgreSQLManager.table) (ts : Z)
        (product : ProductData) (products : list ProductData) :
  match server with
  | Some t =>
      PostgreSQLManager.has_arbiter
        [PostgreSQLManager.col_name; PostgreSQLManager.col_source_url] t
  | None => false
  end = false ->
  let c := PostgreSQLManager.connect server in
  let c' := snd (PostgreSQLManager.save_products ts (product :: products) c) in
  fst (PostgreSQLManager.save_products ts (product :: products) c) = false /\
  option_map PostgreSQLManager.rows (PostgreSQLManager.products_table c') =
    Some (match server with
          | Some t => PostgreSQLManager.rows t
          | None => []
          end).
Proof.
  intros Hserver. cbn zeta.
  unfold PostgreSQLManager.connect, PostgreSQLManager._create_tables.
  cbn [PostgreSQLManager.products_table].
  set (t0 := match server with
             | Some t => t
             | None => PostgreSQLManager.new_products_table
             end).
  assert (H0 : PostgreSQLManager.has_arbiter
                 [PostgreSQLManager.col_name; PostgreSQLManager.col_source_url] t0
               = false).
  { unfold t0. destruct server; [exact Hserver|reflexivity]. }
  set (t3 := PostgreSQLManager.create_index_if_not_exists _ _ _).
  assert (H3 : PostgreSQLManager.has_arbiter
                 [PostgreSQLManager.col_name; PostgreSQLManager.col_source_url] t3
               = false).
  { unfold t3. now rewrite !create_index_arbiter. }
  unfold PostgreSQLManager.save_products.
  cbn [PostgreSQLManager.in_failed_transaction PostgreSQLManager.products_table
       PostgreSQLManager.execute_all].
  unfold PostgreSQLManager.execute_insert. rewrite H3. cbn.
  split; [reflexivity|]. f_equal. unfold t3.
  rewrite !create_index_rows. unfold t0. now destruct server.
Qed.

(** ** What an upsert keeps and what it writes *)

Lemma same_key_key_of (p q : ProductData) :
  same_key p q = true <-> key_of p = key_of q.
Proof.
  unfold same_key, key_of. rewrite andb_true_iff, !py_eqb_eq.
  split; [intros [-> ->]; reflexivity|intros H; now injection H].
Qed.

Lemma on_conflict_kept (ts : Z) (p : ProductData) :
  forall (rs rs' : list PostgreSQLManager.row),
    PostgreSQLManager.on_conflict ts p rs = Some rs' ->
    map kept_columns rs' = map kept_columns rs.
Proof.
  induction rs as [|r rs IH]; intros rs' H; cbn in H; [discriminate|].
  destruct (same_key (PostgreSQLManager.row_data r) p).
  - injection H as <-. reflexivity.
  - destruct (PostgreSQLManager.on_conflict ts p rs) as [rs0|]; [|discriminate].
    injection H as <-. cbn. now rewrite (IH rs0 eq_refl).
Qed.

(** an insert that succeeds stored some form of the record, by an
    update in place or as a new row *)
Lemma execute_insert_inv (ts : Z) (p : ProductData)
      (t t' : PostgreSQLManager.table) :
  PostgreSQLManager.execute_insert ts p t = inr t' ->
  exists q,
    PostgreSQLManager.stored p = Some q /\
    match PostgreSQLManager.on_conflict ts q (PostgreSQLManager.rows t) with
    | Some rs => PostgreSQLManager.rows t' = rs
    | None =>
        PostgreSQLManager.rows t' =
        PostgreSQLManager.rows t ++
        [PostgreSQLManager.mkRow (PostgreSQLManager.next_id t) q ts ts]
    end.
Proof.
  unfold PostgreSQLManager.execute_insert.
  destruct (negb _); [discriminate|].
  destruct (PostgreSQLManager.stored p) as [q|]; [|discriminate].
  intros H. exists q. split; [reflexivity|].
  destruct (PostgreSQLManager.on_conflict ts q (PostgreSQLManager.rows t));
    injection H as <-; reflexivity.
Qed.

Lemma execute_insert_kept (ts : Z) (p : ProductData)
      (t t' : PostgreSQLManager.table) :
  PostgreSQLManager.execute_insert ts p t = inr t' ->
  exists extra,
    map kept_columns (PostgreSQLManager.rows t') =
    map kept_columns (PostgreSQLManager.rows t) ++ extra.
Proof.
  intros H. destruct (execute_insert_inv ts p t t' H) as (q & _ & Hrows).
  destruct (PostgreSQLManager.on_conflict ts q (PostgreSQLManager.rows t))
    as [rs|] eqn:Hc; rewrite Hrows.
  - exists []. rewrite app_nil_r. now apply on_conflict_kept in Hc.
  - eexists. now rewrite map_app.
Qed.

Lemma execute_all_kept (ts : Z) (products : list ProductData) :
  forall t t' : PostgreSQLManager.table,
    PostgreSQLManager.execute_all ts products t = inr t' ->
    exists extra,
      map kept_columns (PostgreSQLManager.rows t') =
      map kept_columns (PostgreSQLManager.rows t) ++ extra.
Proof.
  induction products as [|p ps IH]; intros t t' H; cbn in H.
  - injection H as <-. exists []. now rewrite app_nil_r.
  - destruct (PostgreSQLManager.execute_insert ts p t) as [e|t1] eqn:Hp;
      [discriminate|].
    destruct (execute_insert_kept ts p t t1 Hp) as [x1 H1].
    destruct (IH t1 t' H) as [x2 H2].
    exists (x1 ++ x2). now rewrite H2, H1, app_assoc.
Qed.

(** X15. [save_products] never removes a row and never rewrites the
    [id], [created_at], [name], [source_url], [url], [maker],
    [category], [launch_date], [image_url] or [scraped_at] of a stored
    row, whether it succeeds or fails: what the table held before comes
    first, unchanged in these columns, in what it holds after. *)
Theorem postgres_rows_are_kept
        (ts : Z) (products : list ProductData)
        (c : PostgreSQLManager.connection) :
  let c' := snd (PostgreSQLManager.save_products ts products c) in
  exists extra,
    option_map (fun t => map kept_columns (PostgreSQLManager.rows t))
               (PostgreSQLManager.products_table c') =
    option_map (fun t => map kept_columns (PostgreSQLManager.rows t) ++ extra)
               (PostgreSQLManager.products_table c).
Proof.
  cbn zeta. unfold PostgreSQLManager.save_products.
  destruct products as [|p ps].
  { exists []. cbn. destruct (PostgreSQLManager.products_table c); cbn;
      [now rewrite app_nil_r|reflexivity]. }
  destruct (PostgreSQLManager.in_failed_transaction c).
  { exists []. cbn. destruct (PostgreSQLManager.products_table c); cbn;
      [now rewrite app_nil_r|reflexivity]. }
  destruct (PostgreSQLManager.products_table c) as [t|]; [|exists []; reflexivity].
  destruct (PostgreSQLManager.execute_all ts (p :: ps) t) as [[e t1]|t1] eqn:Hall.
  - exists []. cbn. now rewrite app_nil_r.
  - destruct (execute_all_kept ts (p :: ps) t t1 Hall) as [extra H].
    exists extra. cbn. now rewrite H.
Qed.

(** keys under an update in place *)
Lemma on_conflict_keys (ts : Z) (p : ProductData) :
  forall rs : list PostgreSQLManager.row,
    match PostgreSQLManager.on_conflict ts p rs with
    | Some rs' =>
        map (fun r => key_of (PostgreSQLManager.row_data r)) rs' =
        map (fun r => key_of (PostgreSQLManager.row_data r)) rs
    | None =>
        ~ In (key_of p) (map (fun r => key_of (PostgreSQLManager.row_data r)) rs)
    end.
Proof.
  induction rs as [|r rs IH]; cbn; [tauto|].
  destruct (same_key (PostgreSQLManager.row_data r) p) eqn:Hk.
  - reflexivity.
  - destruct (PostgreSQLManager.on_conflict ts p rs) as [rs'|]; cbn.
    + now rewrite IH.
    + intros [H|H]; [|now apply IH].
      apply same_key_key_of in H. congruence.
Qed.

Lemma set_first_match_keys (p : ProductData) :
  forall ds : list MongoDBManager.document,
    match MongoDBManager.set_first_match p ds with
    | Some ds' =>
        map (fun d => key_of (MongoDBManager.fields d)) ds' =
        map (fun d => key_of (MongoDBManager.fields d)) ds /\
        map MongoDBManager._id ds' = map MongoDBManager._id ds
    | None =>
        ~ In (key_of p) (map (fun d => key_of (MongoDBManager.fields d)) ds)
    end.
Proof.
  induction ds as [|d ds IH]; cbn; [tauto|].
  destruct (same_key (MongoDBManager.fields d) p) eqn:Hk.
  - cbn. apply same_key_key_of in Hk. now rewrite Hk.
  - destruct (MongoDBManager.set_first_match p ds) as [ds'|]; cbn.
    + destruct IH as [-> ->]. auto.
    + intros [H|H]; [|now apply IH].
      apply same_key_key_of in H. congruence.
Qed.

Lemma NoDup_snoc {A} (l : list A) (x : A) :
  NoDup l -> ~ In x l -> NoDup (l ++ [x]).
Proof.
  intros Hl Hx. apply NoDup_app; [exact Hl|repeat constructor; auto|].
  intros a Ha [<-|[]]. contradiction.
Qed.

Lemma execute_insert_unique (ts : Z) (p : ProductData)
      (t t' : PostgreSQLManager.table) :
  PostgreSQLManager.execute_insert ts p t = inr t' ->
  NoDup (map (fun r => key_of (PostgreSQLManager.row_data r))
             (PostgreSQLManager.rows t)) ->
  NoDup (map (fun r => key_of (PostgreSQLManager.row_data r))
             (PostgreSQLManager.rows t')).
Proof.
  intros H Hnd. destruct (execute_insert_inv ts p t t' H) as (q & _ & Hrows).
  pose proof (on_conflict_keys ts q (PostgreSQLManager.rows t)) as Hk.
  destruct (PostgreSQLManager.on_conflict ts q (PostgreSQLManager.rows t))
    as [rs|]; rewrite Hrows.
  - now rewrite Hk.
  - rewrite map_app. cbn. now apply NoDup_snoc.
Qed.

Lemma update_one_unique (p : ProductData) (c c' : MongoDBManager.collection) :
  MongoDBManager.update_one p c = inr c' ->
  NoDup (map (fun d => key_of (MongoDBManager.fields d))
             (MongoDBManager.documents c)) ->
  NoDup (map (fun d => key_of (MongoDBManager.fields d))
             (MongoDBManager.documents c')).
Proof.
  unfold MongoDBManager.update_one.
  destruct (negb _); [discriminate|].
  pose proof (set_first_match_keys p (MongoDBManager.documents c)) as Hk.
  destruct (MongoDBManager.set_first_match p (MongoDBManager.documents c))
    as [ds|]; intros H Hnd; injection H as <-; cbn.
  - destruct Hk as [Hk _]. now rewrite Hk.
  - rewrite map_app. cbn. now apply NoDup_snoc.
Qed.

Lemma update_all_unique (docs : list ProductData) :
  forall c : MongoDBManager.collection,
    NoDup (map (fun d => key_of (MongoDBManager.fields d))
               (MongoDBManager.documents c)) ->
    NoDup (map (fun d => key_of (MongoDBManager.fields d))
               (MongoDBManager.documents
                  (match MongoDBManager.update_all docs c with
                   | inr c' => c'
                   | inl (_, c') => c'
                   end))).
Proof.
  induction docs as [|p ps IH]; intros c Hnd; cbn; [exact Hnd|].
  destruct (MongoDBManager.update_one p c) as [e|c1] eqn:Hp; [exact Hnd|].
  apply IH. now apply (update_one_unique p c c1).
Qed.

Lemma execute_all_unique (ts : Z) (products : list ProductData) :
  forall t t' : PostgreSQLManager.table,
    PostgreSQLManager.execute_all ts products t = inr t' ->
    NoDup (map (fun r => key_of (PostgreSQLManager.row_data r))
               (PostgreSQLManager.rows t)) ->
    NoDup (map (fun r => key_of (PostgreSQLManager.row_data r))
               (PostgreSQLManager.rows t')).
Proof.
  induction products as [|p ps IH]; intros t t' H Hnd; cbn in H.
  - now injection H as <-.
  - destruct (PostgreSQLManager.execute_insert ts p t) as [e|t1] eqn:Hp;
      [discriminate|].
    apply (IH t1 t' H). now apply (execute_insert_unique ts p t t1).
Qed.

(** X16. The natural key stays unique.  If no two rows of the table,
    and no two documents of the collection, share their
    [(name, source_url)], none do after [save_products], whether the
    call succeeds or fails. *)
Theorem natural_key_stays_unique
        (ts : Z) (products : list ProductData)
        (t : PostgreSQLManager.table) (coll : MongoDBManager.collection) :
  NoDup (map (fun r => key_of (PostgreSQLManager.row_data r))
             (PostgreSQLManager.rows t)) ->
  NoDup (map (fun d => key_of (MongoDBManager.fields d))
             (MongoDBManager.documents coll)) ->
  (forall t',
     PostgreSQLManager.products_table
       (snd (PostgreSQLManager.save_products ts products
               (PostgreSQLManager.mkConnection (Some t) false))) = Some t' ->
     NoDup (map (fun r => key_of (PostgreSQLManager.row_data r))
                (PostgreSQLManager.rows t'))) /\
  NoDup (map (fun d => key_of (MongoDBManager.fields d))
             (MongoDBManager.documents
                (snd (MongoDBManager.save_products products coll)))).
Proof.
  intros Hpg Hmongo. split.
  - intros t'. unfold PostgreSQLManager.save_products.
    destruct products as [|p ps]; cbn [snd PostgreSQLManager.products_table
      PostgreSQLManager.in_failed_transaction].
    + intros H. now injection H as <-.
    + destruct (PostgreSQLManager.execute_all ts (p :: ps) t)
        as [[e t1]|t1] eqn:Hall; cbn; intros H; injection H as <-.
      * exact Hpg.
      * now apply (execute_all_unique ts (p :: ps) t t1).
  - unfold MongoDBManager.save_products. destruct products as [|p ps];
      [exact Hmongo|].
    pose proof (update_all_unique (p :: ps) coll Hmongo) as H.
    destruct (MongoDBManager.update_all (p :: ps) coll) as [[e c1]|c1]; exact H.
Qed.

(** ** Round trips *)

Lemma set_first_match_stores (p : ProductData) :
  forall ds ds' : list MongoDBManager.document,
    MongoDBManager.set_first_match p ds = Some ds' ->
    In p (map MongoDBManager.fields ds').
Proof.
  induction ds as [|d ds IH]; intros ds' H; cbn in H; [discriminate|].
  destruct (same_key (MongoDBManager.fields d) p).
  - injection H as <-. now left.
  - destruct (MongoDBManager.set_first_match p ds) as [ds0|]; [|discriminate].
    injection H as <-. right. now apply IH.
Qed.

Lemma set_first_match_keeps (p q : ProductData) :
  same_key p q = false ->
  forall ds ds' : list MongoDBManager.document,
    MongoDBManager.set_first_match q ds = Some ds' ->
    In p (map MongoDBManager.fields ds) ->
    In p (map MongoDBManager.fields ds').
Proof.
  intros Hpq. induction ds as [|d ds IH]; intros ds' H Hin; cbn in H;
    [discriminate|].
  destruct (same_key (MongoDBManager.fields d) q) eqn:Hk.
  - injection H as <-. destruct Hin as [Hd|Hin]; [|now right].
    rewrite Hd in Hk. congruence.
  - destruct (MongoDBManager.set_first_match q ds) as [ds0|]; [|discriminate].
    injection H as <-. destruct Hin as [Hd|Hin]; [now left|].
    right. now apply IH.
Qed.

Lemma update_one_stores (p : ProductData) (c c' : MongoDBManager.collection) :
  MongoDBManager.update_one p c = inr c' ->
  In p (map MongoDBManager.fields (MongoDBManager.documents c')).
Proof.
  unfold MongoDBManager.update_one. destruct (negb _); [discriminate|].
  destruct (MongoDBManager.set_first_match p (MongoDBManager.documents c))
    as [ds|] eqn:Hm; intros H; injection H as <-; cbn.
  - exact (set_first_match_stores p _ ds Hm).
  - rewrite map_app. apply in_or_app. right. now left.
Qed.

Lemma update_one_keeps (p q : ProductData) (c c' : MongoDBManager.collection) :
  same_key p q = false ->
  MongoDBManager.update_one q c = inr c' ->
  In p (map MongoDBManager.fields (MongoDBManager.documents c)) ->
  In p (map MongoDBManager.fields (MongoDBManager.documents c')).
Proof.
  intros Hpq. unfold MongoDBManager.update_one. destruct (negb _); [discriminate|].
  destruct (MongoDBManager.set_first_match q (MongoDBManager.documents c))
    as [ds|] eqn:Hm; intros H Hin; injection H as <-; cbn.
  - exact (set_first_match_keeps p q Hpq _ ds Hm Hin).
  - rewrite map_app. apply in_or_app. now left.
Qed.

Lemma update_all_keeps (p : ProductData) (after : list ProductData) :
  Forall (fun q => same_key p q = false) after ->
  forall c c' : MongoDBManager.collection,
    MongoDBManager.update_all after c = inr c' ->
    In p (map MongoDBManager.fields (MongoDBManager.documents c)) ->
    In p (map MongoDBManager.fields (MongoDBManager.documents c')).
Proof.
  induction 1 as [|q qs Hq _ IH]; intros c c' H Hin; cbn in H.
  - now injection H as <-.
  - destruct (MongoDBManager.update_one q c) as [e|c1] eqn:H1; [discriminate|].
    apply (IH c1 c' H). now apply (update_one_keeps p q c c1).
Qed.

Lemma update_all_stores (before : list ProductData) (p : ProductData)
      (after : list ProductData) :
  Forall (fun q => same_key p q = false) after ->
  forall c c' : MongoDBManager.collection,
    MongoDBManager.update_all (before ++ p :: after) c = inr c' ->
    In p (map MongoDBManager.fields (MongoDBManager.documents c')).
Proof.
  intros Hafter. induction before as [|b bs IH]; intros c c' H; cbn in H.
  - destruct (MongoDBManager.update_one p c) as [e|c1] eqn:H1; [discriminate|].
    apply (update_all_keeps p after Hafter c1 c' H).
    now apply (update_one_stores p c c1).
  - destruct (MongoDBManager.update_one b c) as [e|c1]; [discriminate|].
    now apply (IH c1 c').
Qed.

Section RoundTrips.
Context {PT : PostgreSQLManager.tie_order} {MT : MongoDBManager.tie_order}.

(** X17. MongoDB round trip: after a [save_products] that returned
    success, [get_products] returns, for every record of the batch that
    no later record of the batch shares its key with, a document with
    exactly the twelve fields of that record. *)
Theorem mongo_round_trip
        (before : list ProductData) (p : ProductData) (after : list ProductData)
        (c c' : MongoDBManager.collection) :
  Forall (fun q => same_key p q = false) after ->
  MongoDBManager.save_products (before ++ p :: after) c = (true, c') ->
  In p (map MongoDBManager.fields (MongoDBManager.get_products None c')).
Proof.
  intros Hafter Hsave.
  assert (Hall : MongoDBManager.update_all (before ++ p :: after) c = inr c').
  { unfold MongoDBManager.save_products in Hsave.
    destruct (before ++ p :: after) as [|x xs] eqn:Hb.
    - now destruct before.
    - destruct (MongoDBManager.update_all (x :: xs) c) as [[e c1]|c1];
        [discriminate|]. now injection Hsave as <-. }
  apply (update_all_stores before p after Hafter) in Hall.
  unfold MongoDBManager.get_products. cbn [truthy_limit].
  eapply Permutation_in; [|exact Hall].
  apply Permutation_map, Permutation_sym, sort_desc_perm.
Qed.

End RoundTrips.

(** what PostgreSQL stores of a record it takes *)
Lemma varchar_cut (n : nat) (s s' : str) :
  PostgreSQLManager.varchar n s = Some s' -> s' = firstn n s.
Proof.
  unfold PostgreSQLManager.varchar.
  destruct (forallb _ _); [|discriminate]. intros H. now injection H.
Qed.

Lemma stored_view (p q : ProductData) :
  PostgreSQLManager.stored p = Some q ->
  key_of q = stored_key p /\
  shared_view q =
  (firstn 255 (name p), firstn 500 (source_url p), tagline p, description p,
   votes p, comments p).
Proof.
  unfold PostgreSQLManager.stored.
  destruct (PostgreSQLManager.varchar 255 (name p)) as [n'|] eqn:Hn;
    [|discriminate].
  destruct (PostgreSQLManager.opt_varchar 500 (url p)); [|discriminate].
  destruct (PostgreSQLManager.opt_varchar 255 (maker p)); [|discriminate].
  destruct (PostgreSQLManager.opt_varchar 100 (category p)); [|discriminate].
  destruct (PostgreSQLManager.opt_varchar 500 (image_url p)); [|discriminate].
  destruct (PostgreSQLManager.varchar 500 (source_url p)) as [s'|] eqn:Hs;
    [|discriminate].
  destruct (_ && _); [|discriminate].
  intros H. injection H as <-.
  apply varchar_cut in Hn, Hs. subst n' s'.
  split; reflexivity.
Qed.

Lemma on_conflict_stores (ts : Z) (p : ProductData) :
  forall rs rs' : list PostgreSQLManager.row,
    PostgreSQLManager.on_conflict ts p rs = Some rs' ->
    exists r, In r rs' /\
              shared_view (PostgreSQLManager.row_data r) = shared_view p /\
              PostgreSQLManager.updated_at r = ts.
Proof.
  induction rs as [|r rs IH]; intros rs' H; cbn in H; [discriminate|].
  destruct (same_key (PostgreSQLManager.row_data r) p) eqn:Hk.
  - injection H as <-. eexists. split; [now left|]. cbn.
    apply same_key_eq in Hk. destruct Hk as [Hn Hs].
    unfold shared_view. cbn. now rewrite Hn, Hs.
  - destruct (PostgreSQLManager.on_conflict ts p rs) as [rs0|]; [|discriminate].
    injection H as <-. destruct (IH rs0 eq_refl) as (r0 & Hin & Hv).
    exists r0. split; [now right|exact Hv].
Qed.

Lemma on_conflict_keeps (ts : Z) (q : ProductData) (r : PostgreSQLManager.row) :
  same_key (PostgreSQLManager.row_data r) q = false ->
  forall rs rs' : list PostgreSQLManager.row,
    PostgreSQLManager.on_conflict ts q rs = Some rs' -> In r rs -> In r rs'.
Proof.
  intros Hr. induction rs as [|r0 rs IH]; intros rs' H Hin; cbn in H;
    [discriminate|].
  destruct (same_key (PostgreSQLManager.row_data r0) q) eqn:Hk.
  - injection H as <-. destruct Hin as [->|Hin]; [congruence|now right].
  - destruct (PostgreSQLManager.on_conflict ts q rs) as [rs0|]; [|discriminate].
    injection H as <-. destruct Hin as [->|Hin]; [now left|].
    right. now apply IH.
Qed.

Lemma execute_insert_stores (ts : Z) (p : ProductData)
      (t t' : PostgreSQLManager.table) :
  PostgreSQLManager.execute_insert ts p t = inr t' ->
  exists q r,
    PostgreSQLManager.stored p = Some q /\
    In r (PostgreSQLManager.rows t') /\
    shared_view (PostgreSQLManager.row_data r) = shared_view q /\
    PostgreSQLManager.updated_at r = ts.
Proof.
  intros H. destruct (execute_insert_inv ts p t t' H) as (q & Hq & Hrows).
  exists q.
  destruct (PostgreSQLManager.on_conflict ts q (PostgreSQLManager.rows t))
    as [rs|] eqn:Hc; rewrite Hrows.
  - destruct (on_conflict_stores ts q _ rs Hc) as (r & Hin & Hv).
    exists r. auto.
  - eexists. split; [exact Hq|].
    split; [apply in_or_app; right; now left|]. auto.
Qed.

Lemma execute_insert_keeps (ts : Z) (q : ProductData)
      (r : PostgreSQLManager.row) (t t' : PostgreSQLManager.table) :
  key_of (PostgreSQLManager.row_data r) <> stored_key q ->
  PostgreSQLManager.execute_insert ts q t = inr t' ->
  In r (PostgreSQLManager.rows t) -> In r (PostgreSQLManager.rows t').
Proof.
  intros Hr H Hin.
  destruct (execute_insert_inv ts q t t' H) as (q' & Hq & Hrows).
  assert (Hk : same_key (PostgreSQLManager.row_data r) q' = false).
  { destruct (same_key (PostgreSQLManager.row_data r) q') eqn:Hk;
      [|reflexivity].
    apply same_key_key_of in Hk.
    rewrite (proj1 (stored_view q q' Hq)) in Hk. contradiction. }
  destruct (PostgreSQLManager.on_conflict ts q' (PostgreSQLManager.rows t))
    as [rs|] eqn:Hc; rewrite Hrows.
  - exact (on_conflict_keeps ts q' r Hk _ rs Hc Hin).
  - apply in_or_app. now left.
Qed.

Lemma execute_all_keeps (ts : Z) (r : PostgreSQLManager.row)
      (after : list ProductData) :
  Forall (fun q => stored_key q <> key_of (PostgreSQLManager.row_data r)) after ->
  forall t t' : PostgreSQLManager.table,
    PostgreSQLManager.execute_all ts after t = inr t' ->
    In r (PostgreSQLManager.rows t) -> In r (PostgreSQLManager.rows t').
Proof.
  induction 1 as [|q qs Hq _ IH]; intros t t' H Hin; cbn in H.
  - now injection H as <-.
  - destruct (PostgreSQLManager.execute_insert ts q t) as [e|t1] eqn:H1;
      [discriminate|].
    apply (IH t1 t' H).
    apply (execute_insert_keeps ts q r t t1); [congruence|exact H1|exact Hin].
Qed.

Lemma execute_all_stores (ts : Z) (before : list ProductData) (p : ProductData)
      (after : list ProductData) :
  Forall (fun q => stored_key q <> stored_key p) after ->
  forall t t' : PostgreSQLManager.table,
    PostgreSQLManager.execute_all ts (before ++ p :: after) t = inr t' ->
    exists q r,
      PostgreSQLManager.stored p = Some q /\
      In r (PostgreSQLManager.rows t') /\
      shared_view (PostgreSQLManager.row_data r) = shared_view q /\
      PostgreSQLManager.updated_at r = ts.
Proof.
  intros Hafter. induction before as [|b bs IH]; intros t t' H; cbn in H.
  - destruct (PostgreSQLManager.execute_insert ts p t) as [e|t1] eqn:H1;
      [discriminate|].
    destruct (execute_insert_stores ts p t t1 H1) as (q & r & Hq & Hin & Hv & Hu).
    exists q, r. split; [exact Hq|]. split; [|auto].
    apply (execute_all_keeps ts r after) with (t := t1); [|exact H|exact Hin].
    assert (Hkey : key_of (PostgreSQLManager.row_data r) = stored_key p).
    { rewrite <- (proj1 (stored_view p q Hq)).
      unfold key_of, shared_view in *. now injection Hv as -> -> _ _ _ _. }
    rewrite Hkey. exact Hafter.
  - destruct (PostgreSQLManager.execute_insert ts b t) as [e|t1]; [discriminate|].
    now apply (IH t1 t').
Qed.

Section Queries2.
Context {PT : PostgreSQLManager.tie_order} {MT : MongoDBManager.tie_order}.

(** X18. PostgreSQL round trip, for the fields the upsert writes.
    After a [save_products] that returned success, [get_products]
    returns, for every record of the batch whose key as stored no later
    record of the batch shares, a row with the tagline, description,
    votes and comments of that record, with the time of the transaction
    as [updated_at], and with its name and source URL as the columns
    hold them: the first 255 characters of the name, the first 500 of
    the source URL, so the name and the source URL themselves when they
    are not longer. *)
Theorem postgres_round_trip
        (ts : Z) (before : list ProductData) (p : ProductData)
        (after : list ProductData)
        (t : PostgreSQLManager.table) (c' : PostgreSQLManager.connection) :
  Forall (fun q =>
            (firstn 255 (name q), firstn 500 (source_url q)) <>
            (firstn 255 (name p), firstn 500 (source_url p))) after ->
  PostgreSQLManager.save_products ts (before ++ p :: after)
    (PostgreSQLManager.mkConnection (Some t) false) = (true, c') ->
  exists r,
    In r (fst (PostgreSQLManager.get_products None c')) /\
    shared_view (PostgreSQLManager.row_data r) =
      (firstn 255 (name p), firstn 500 (source_url p), tagline p,
       description p, votes p, comments p) /\
    PostgreSQLManager.updated_at r = ts /\
    ((length (name p) <= 255)%nat -> (length (source_url p) <= 500)%nat ->
     shared_view (PostgreSQLManager.row_data r) = shared_view p).
Proof.
  intros Hafter Hsave.
  unfold PostgreSQLManager.save_products in Hsave.
  destruct (before ++ p :: after) as [|x xs] eqn:Hb; [now destruct before|].
  cbn [PostgreSQLManager.in_failed_transaction
       PostgreSQLManager.products_table] in Hsave.
  destruct (PostgreSQLManager.execute_all ts (x :: xs) t) as [[e t1]|t1] eqn:Hall;
    [discriminate|].
  injection Hsave as <-. rewrite <- Hb in Hall.
  destruct (execute_all_stores ts before p after Hafter t t1 Hall)
    as (q & r & Hq & Hin & Hv & Hu).
  exists r. split.
  { cbn. eapply Permutation_in; [|exact Hin].
    apply Permutation_sym, sort_desc_perm. }
  rewrite Hv, (proj2 (stored_view p q Hq)).
  split; [reflexivity|]. split; [exact Hu|].
  intros Hn Hs. unfold shared_view.
  now rewrite (firstn_all2 _ Hn), (firstn_all2 _ Hs).
Qed.

(** X19. A positive limit keeps the most recent rows.  In both
    backends [get_products] with a limit [n] between 1 and the largest
    integer of eight bytes returns [n] of the stored rows, or all of
    them when there are fewer, and their [scraped_at] are, in order,
    the first [n] of those the query without a limit returns; which of
    several rows of equal [scraped_at] are returned is the server's
    choice.  The PostgreSQL connection stays as it was. *)
Theorem positive_limit_keeps_most_recent
        (n : Z) (t : PostgreSQLManager.table) (coll : MongoDBManager.collection) :
  (0 < n <= 9223372036854775807)%Z ->
  let c := PostgreSQLManager.mkConnection (Some t) false in
  let rows_n := fst (PostgreSQLManager.get_products (Some n) c) in
  let docs_n := MongoDBManager.get_products (Some n) coll in
  (map (fun r => scraped_at (PostgreSQLManager.row_data r)) rows_n =
     firstn (Z.to_nat n)
       (map (fun r => scraped_at (PostgreSQLManager.row_data r))
            (fst (PostgreSQLManager.get_products None c))) /\
   (exists others, Permutation (rows_n ++ others) (PostgreSQLManager.rows t)) /\
   length rows_n = Nat.min (Z.to_nat n) (length (PostgreSQLManager.rows t)) /\
   snd (PostgreSQLManager.get_products (Some n) c) = c) /\
  (map (fun d => scraped_at (MongoDBManager.fields d)) docs_n =
     firstn (Z.to_nat n)
       (map (fun d => scraped_at (MongoDBManager.fields d))
            (MongoDBManager.get_products None coll)) /\
   (exists others, Permutation (docs_n ++ others) (MongoDBManager.documents coll)) /\
   length docs_n = Nat.min (Z.to_nat n) (length (MongoDBManager.documents coll))).
Proof.
  intros [Hpos Hmax]. cbn zeta.
  assert (H0 : (n =? 0)%Z = false) by (apply Z.eqb_neq; lia).
  assert (Hneg : (n <? 0)%Z = false) by (apply Z.ltb_ge; lia).
  assert (Hbig : (INT64_MAX <? n)%Z = false)
    by (apply Z.ltb_ge; unfold INT64_MAX; lia).
  assert (Hbig' : (INT64_MAX <? Z.abs n)%Z = false)
    by (apply Z.ltb_ge; unfold INT64_MAX; lia).
  unfold PostgreSQLManager.get_products, MongoDBManager.get_products, truthy_limit.
  cbn [PostgreSQLManager.in_failed_transaction PostgreSQLManager.products_table].
  rewrite H0, Hneg, Hbig, Hbig'. cbn [orb fst snd].
  rewrite (Z.abs_eq n) by lia.
  split; (split; [|split; [|try split]]).
  - rewrite <- firstn_map. f_equal. apply sort_desc_keys.
  - eexists. rewrite firstn_skipn. apply sort_desc_perm.
  - rewrite length_firstn. f_equal.
    apply Permutation_length, sort_desc_perm.
  - reflexivity.
  - rewrite <- firstn_map. f_equal. apply sort_desc_keys.
  - eexists. rewrite firstn_skipn. apply sort_desc_perm.
  - rewrite length_firstn. f_equal.
    apply Permutation_length, sort_desc_perm.
Qed.

(** X20. A negative limit breaks the PostgreSQL connection for reading:
    the statement is refused inside a transaction that [get_products]
    does not roll back, so that call, every later [get_products] and
    [get_stats], return nothing although the rows are there, and an
    empty [save_products] still reports success without mending it;
    the [rollback] of a failed [save_products] makes the rows readable
    again. *)
Theorem negative_limit_breaks_reads
        (n ts : Z) (t : PostgreSQLManager.table)
        (product : ProductData) (products : list ProductData) :
  (n < 0)%Z ->
  let c := PostgreSQLManager.mkConnection (Some t) false in
  let c1 := snd (PostgreSQLManager.get_products (Some n) c) in
  let c2 := snd (PostgreSQLManager.save_products ts (product :: products) c1) in
  fst (PostgreSQLManager.get_products (Some n) c) = [] /\
  PostgreSQLManager.get_products None c1 = ([], c1) /\
  PostgreSQLManager.get_stats c1 = (None, c1) /\
  PostgreSQLManager.save_products ts [] c1 = (true, c1) /\
  fst (PostgreSQLManager.save_products ts (product :: products) c1) = false /\
  fst (PostgreSQLManager.get_products None c2) =
    sort_desc (PostgreSQLManager.comes_first None)
              (fun r => scraped_at (PostgreSQLManager.row_data r))
              (PostgreSQLManager.rows t).
Proof.
  intros Hn. cbn zeta.
  assert (H0 : (n =? 0)%Z = false) by (apply Z.eqb_neq; lia).
  assert (Hneg : (n <? 0)%Z = true) by (apply Z.ltb_lt; lia).
  assert (Hq : PostgreSQLManager.get_products (Some n)
                 (PostgreSQLManager.mkConnection (Some t) false) =
               ([], PostgreSQLManager.mkConnection (Some t) true)).
  { unfold PostgreSQLManager.get_products, truthy_limit.
    cbn [PostgreSQLManager.in_failed_transaction
         PostgreSQLManager.products_table].
    now rewrite H0, Hneg. }
  rewrite Hq. cbn [fst snd]. repeat split.
Qed.

End Queries2.

Lemma fold_left_max_spec (r : list Z) :
  forall x : Z,
    let m := fold_left Z.max r x in
    (x <= m)%Z /\ Forall (fun y => (y <= m)%Z) r /\ In m (x :: r).
Proof.
  induction r as [|y r IH]; intros x; cbn.
  - split; [lia|]. split; [constructor|now left].
  - destruct (IH (Z.max x y)) as (Hge & Hall & Hin).
    split; [lia|]. split.
    + constructor; [lia|exact Hall].
    + destruct Hin as [Hin|Hin]; [|now right; right].
      destruct (Z.max_spec x y) as [[_ Hm]|[_ Hm]]; rewrite Hm in Hin |- *.
      * right. now left.
      * now left.
Qed.

(** the greatest element is the head of a descending arrangement *)
Lemma max_of_descending (l l' : list Z) :
  Permutation l l' -> descending l' -> max_of l = hd_error l'.
Proof.
  intros Hperm Hdesc. destruct l as [|x r].
  - apply Permutation_nil in Hperm. now subst.
  - destruct l' as [|h tl];
      [apply Permutation_sym, Permutation_nil in Hperm; discriminate|].
    cbn. f_equal.
    destruct (fold_left_max_spec r x) as (Hge & Hall & Hin).
    set (m := fold_left Z.max r x) in *.
    assert (Hmh : (m <= h)%Z).
    { apply (Permutation_in _ Hperm) in Hin. destruct Hin as [<-|Hin]; [lia|].
      inversion Hdesc as [|? ? _ Htl]; subst.
      rewrite Forall_forall in Htl. now apply Htl. }
    assert (Hhm : (h <= m)%Z).
    { assert (Hh : In h (x :: r))
        by (apply (Permutation_in _ (Permutation_sym Hperm)); now left).
      destruct Hh as [<-|Hh]; [exact Hge|].
      rewrite Forall_forall in Hall. now apply Hall. }
    lia.
Qed.

Lemma count_distinct_le (l : list str) : (count_distinct l <= length l)%nat.
Proof.
  unfold count_distinct. induction l as [|x r IH]; cbn; [lia|].
  destruct (in_dec str_dec x r); cbn; lia.
Qed.

(** the statistics of a list of records against the list sorted *)
Lemma stats_of_sorted {A} (first : A -> A -> bool) (data : A -> ProductData)
      (l : list A) :
  let s := stats_of (map data l) in
  let query := sort_desc first (fun x => scraped_at (data x)) l in
  total_products s = length query /\
  last_scraped s = hd_error (map (fun x => scraped_at (data x)) query) /\
  (unique_sources s <= total_products s)%nat.
Proof.
  cbn. rewrite !map_map, !length_map. split; [|split].
  - symmetry. apply Permutation_length, sort_desc_perm.
  - apply max_of_descending.
    + apply Permutation_map, Permutation_sym, sort_desc_perm.
    + apply sort_desc_sorted.
  - etransitivity; [apply count_distinct_le|]. now rewrite length_map.
Qed.

Section Statistics.
Context {PT : PostgreSQLManager.tie_order} {MT : MongoDBManager.tie_order}.

(** X21. The statistics match the query.  In both backends
    [total_products] is the number of rows [get_products] returns
    without a limit, [last_scraped] is the [scraped_at] of the first of
    them, and [unique_sources] is at most [total_products]; MongoDB
    gives the empty dictionary exactly when the query returns nothing. *)
Theorem stats_match_query
        (t : PostgreSQLManager.table) (coll : MongoDBManager.collection) :
  let c := PostgreSQLManager.mkConnection (Some t) false in
  (exists s,
     fst (PostgreSQLManager.get_stats c) = Some s /\
     total_products s = length (fst (PostgreSQLManager.get_products None c)) /\
     last_scraped s =
       hd_error (map (fun r => scraped_at (PostgreSQLManager.row_data r))
                     (fst (PostgreSQLManager.get_products None c))) /\
     (unique_sources s <= total_products s)%nat) /\
  match MongoDBManager.get_stats coll with
  | Some s =>
      total_products s = length (MongoDBManager.get_products None coll) /\
      last_scraped s =
        hd_error (map (fun d => scraped_at (MongoDBManager.fields d))
                      (MongoDBManager.get_products None coll)) /\
      (unique_sources s <= total_products s)%nat
  | None => MongoDBManager.get_products None coll = []
  end /\
  (MongoDBManager.get_products None coll = [] ->
   MongoDBManager.get_stats coll = None).
Proof.
  cbn zeta. split; [|split].
  - eexists. split; [reflexivity|].
    apply (stats_of_sorted _ PostgreSQLManager.row_data).
  - unfold MongoDBManager.get_stats, MongoDBManager.get_products.
    cbn [truthy_limit].
    destruct (MongoDBManager.documents coll) as [|d ds] eqn:Hdocs;
      [reflexivity|].
    apply (stats_of_sorted _ MongoDBManager.fields).
  - unfold MongoDBManager.get_stats, MongoDBManager.get_products.
    cbn [truthy_limit]. intros Hnone.
    destruct (MongoDBManager.documents coll) as [|d ds]; [reflexivity|].
    pose proof (sort_desc_perm (MongoDBManager.comes_first None)
                  (fun d => scraped_at (MongoDBManager.fields d)) (d :: ds)) as Hp.
    rewrite Hnone in Hp. apply Permutation_nil in Hp. discriminate.
Qed.

End Statistics.

(** ** MongoDB: the indexes [connect] leaves *)

Lemma same_keys_refl (keys : list (string * Z)) :
  MongoDBManager.same_keys keys keys = true.
Proof.
  induction keys as [|[f d] r IH]; cbn; [reflexivity|].
  now rewrite String.eqb_refl, Z.eqb_refl, IH.
Qed.

Lemma find_app_some {A} (f : A -> bool) (l l' : list A) (x : A) :
  List.find f l = Some x -> List.find f (l ++ l') = Some x.
Proof.
  induction l as [|y r IH]; cbn; [discriminate|].
  destruct (f y); [auto|exact IH].
Qed.

Lemma find_app_none {A} (f : A -> bool) (l l' : list A) :
  List.find f l = None -> List.find f (l ++ l') = List.find f l'.
Proof.
  induction l as [|y r IH]; cbn; [reflexivity|].
  destruct (f y); [discriminate|exact IH].
Qed.

(** what [create_index] does when it returns: documents untouched,
    indexes extended, and the index asked for is there *)
Lemma create_index_inv (keys : list (string * Z)) (unique : bool)
      (c c' : MongoDBManager.collection) :
  MongoDBManager.create_index keys unique c = inr c' ->
  MongoDBManager.documents c' = MongoDBManager.documents c /\
  MongoDBManager.next_object_id c' = MongoDBManager.next_object_id c /\
  (exists extra, MongoDBManager.indexes c' = MongoDBManager.indexes c ++ extra) /\
  has_index keys unique c' = true.
Proof.
  unfold MongoDBManager.create_index, has_index.
  destruct (List.find _ (MongoDBManager.indexes c)) as [ix|] eqn:Hfind.
  - destruct (Bool.eqb (MongoDBManager.index_unique ix) unique) eqn:Hu;
      [|discriminate].
    intros H. injection H as <-. rewrite Hfind, Hu.
    repeat split. exists []. now rewrite app_nil_r.
  - destruct (unique && _); [discriminate|].
    intros H. injection H as <-. cbn.
    rewrite (find_app_none _ _ _ Hfind). cbn.
    rewrite same_keys_refl, Bool.eqb_reflx.
    repeat split. eexists. reflexivity.
Qed.

(** an index that is there is left alone *)
Lemma create_index_present_again (keys : list (string * Z)) (unique : bool)
      (c : MongoDBManager.collection) :
  has_index keys unique c = true ->
  MongoDBManager.create_index keys unique c = inr c.
Proof.
  unfold MongoDBManager.create_index, has_index.
  destruct (List.find _ (MongoDBManager.indexes c)) as [ix|]; [|discriminate].
  now intros ->.
Qed.

Lemma has_index_extended (keys : list (string * Z)) (unique : bool)
      (c c' : MongoDBManager.collection) :
  (exists extra, MongoDBManager.indexes c' = MongoDBManager.indexes c ++ extra) ->
  has_index keys unique c = true -> has_index keys unique c' = true.
Proof.
  intros [extra Hix]. unfold has_index. rewrite Hix.
  destruct (List.find _ (MongoDBManager.indexes c)) as [ix|] eqn:Hfind;
    [|discriminate].
  now rewrite (find_app_some _ _ extra _ Hfind).
Qed.

Lemma create_indexes_documents (c : MongoDBManager.collection) :
  MongoDBManager.documents (MongoDBManager._create_indexes c) =
    MongoDBManager.documents c /\
  MongoDBManager.next_object_id (MongoDBManager._create_indexes c) =
    MongoDBManager.next_object_id c.
Proof.
  unfold MongoDBManager._create_indexes.
  destruct (MongoDBManager.create_index _ false c) as [e|c1] eqn:H1; [auto|].
  destruct (create_index_inv _ _ _ _ H1) as (Hd1 & Hn1 & _).
  destruct (MongoDBManager.create_index _ false c1) as [e|c2] eqn:H2; [auto|].
  destruct (create_index_inv _ _ _ _ H2) as (Hd2 & Hn2 & _).
  destruct (MongoDBManager.create_index _ false c2) as [e|c3] eqn:H3;
    [split; congruence|].
  destruct (create_index_inv _ _ _ _ H3) as (Hd3 & Hn3 & _).
  destruct (MongoDBManager.create_index _ true c3) as [e|c4] eqn:H4;
    [split; congruence|].
  destruct (create_index_inv _ _ _ _ H4) as (Hd4 & Hn4 & _).
  split; congruence.
Qed.

Lemma create_indexes_again (c : MongoDBManager.collection) :
  MongoDBManager._create_indexes (MongoDBManager._create_indexes c) =
  MongoDBManager._create_indexes c.
Proof.
  unfold MongoDBManager._create_indexes at 2 3.
  destruct (MongoDBManager.create_index _ false c) as [e|c1] eqn:H1.
  { unfold MongoDBManager._create_indexes. now rewrite H1. }
  destruct (create_index_inv _ _ _ _ H1) as (_ & _ & Hx1 & Hi1).
  destruct (MongoDBManager.create_index _ false c1) as [e|c2] eqn:H2.
  { unfold MongoDBManager._create_indexes.
    now rewrite (create_index_present_again _ _ _ Hi1), H2. }
  destruct (create_index_inv _ _ _ _ H2) as (_ & _ & Hx2 & Hi2).
  pose proof (has_index_extended _ _ _ _ Hx2 Hi1) as Hi12.
  destruct (MongoDBManager.create_index _ false c2) as [e|c3] eqn:H3.
  { unfold MongoDBManager._create_indexes.
    now rewrite (create_index_present_again _ _ _ Hi12),
                (create_index_present_again _ _ _ Hi2), H3. }
  destruct (create_index_inv _ _ _ _ H3) as (_ & _ & Hx3 & Hi3).
  pose proof (has_index_extended _ _ _ _ Hx3 Hi12) as Hi13.
  pose proof (has_index_extended _ _ _ _ Hx3 Hi2) as Hi23.
  destruct (MongoDBManager.create_index _ true c3) as [e|c4] eqn:H4.
  { unfold MongoDBManager._create_indexes.
    now rewrite (create_index_present_again _ _ _ Hi13),
                (create_index_present_again _ _ _ Hi23),
                (create_index_present_again _ _ _ Hi3), H4. }
  destruct (create_index_inv _ _ _ _ H4) as (_ & _ & Hx4 & Hi4).
  pose proof (has_index_extended _ _ _ _ Hx4 Hi13) as Hi14.
  pose proof (has_index_extended _ _ _ _ Hx4 Hi23) as Hi24.
  pose proof (has_index_extended _ _ _ _ Hx4 Hi3) as Hi34.
  unfold MongoDBManager._create_indexes.
  now rewrite (create_index_present_again _ _ _ Hi14),
              (create_index_present_again _ _ _ Hi24),
              (create_index_present_again _ _ _ Hi34),
              (create_index_present_again _ _ _ Hi4).
Qed.

(** X22. MongoDB [connect] raises again what the making of the client
    raises; once the client is made it returns, whatever happens to the
    indexes, and never touches the documents; connecting again to the
    collection it left changes nothing.  On a collection without
    indexes it leaves the three plain indexes and, when no two
    documents share a key, the unique index on [(name, source_url)];
    when two do, that index cannot be built, the failure is only
    logged, and the collection is left with the three plain indexes. *)
Theorem mongo_connect_keeps_documents (c : MongoDBManager.collection) :
  (forall e, MongoDBManager.connect (inl e) = inl e) /\
  (exists c',
     MongoDBManager.connect (inr c) = inr c' /\
     MongoDBManager.documents c' = MongoDBManager.documents c /\
     MongoDBManager.next_object_id c' = MongoDBManager.next_object_id c /\
     MongoDBManager.connect (inr c') = inr c' /\
     (MongoDBManager.indexes c = [] ->
      MongoDBManager.indexes c' =
        [MongoDBManager.mkIndex [("name", 1%Z)] false;
         MongoDBManager.mkIndex [("scraped_at", 1%Z)] false;
         MongoDBManager.mkIndex [("votes", (-1)%Z)] false] ++
        if MongoDBManager.has_duplicate_key (MongoDBManager.documents c)
        then []
        else [MongoDBManager.mkIndex [("name", 1%Z); ("source_url", 1%Z)] true])).
Proof.
  split; [reflexivity|].
  exists (MongoDBManager._create_indexes c). cbn [MongoDBManager.connect].
  split; [reflexivity|].
  split; [apply create_indexes_documents|].
  split; [apply create_indexes_documents|].
  split; [now rewrite create_indexes_again|].
  intros Hix.
  unfold MongoDBManager._create_indexes, MongoDBManager.create_index.
  rewrite Hix.
  cbn [List.find app andb MongoDBManager.documents MongoDBManager.indexes
       MongoDBManager.next_object_id MongoDBManager.same_keys
       MongoDBManager.index_keys String.eqb Ascii.eqb Bool.eqb Z.eqb].
  cbn.
  destruct (MongoDBManager.has_duplicate_key (MongoDBManager.documents c));
    reflexivity.
Qed.

(** * The further properties on concrete inputs *)

Module ConcreteExtra.

Import Example.

(** X1 on 'Votes: ' followed by 42 in Arabic-Indic digits and by
    ' (7 today)' *)
Lemma extract_number_first_run_witness :
  (no_digit (lit "Votes: ") = true /\
   [1636; 1634]%N <> [] /\
   map Py.decimal [1636; 1634]%N = map Some [4; 2]%N /\
   starts_with_digit (lit " (7 today)") = false /\
   (length [1636; 1634]%N <= 640)%nat) /\
  _extract_number (lit "Votes: " ++ [1636; 1634]%N ++ lit " (7 today)") = 42%Z.
Proof.
  assert (Hne : [1636; 1634]%N <> []) by discriminate.
  assert (Hlen : (length [1636; 1634]%N <= 640)%nat)
    by (apply Nat.leb_le; reflexivity).
  split; [repeat split; assumption|].
  exact (proj1 (extract_number_first_run (lit "Votes: ") [1636; 1634]%N
                  (lit " (7 today)") [4; 2]%N eq_refl Hne eq_refl eq_refl Hlen)).
Defined.

(** X2 on a text without digits *)
Lemma extract_number_bounds_witness :
  no_digit (lit "upvote") = true /\ _extract_number (lit "upvote") = 0%Z.
Proof.
  split; [reflexivity|].
  exact (proj2 (extract_number_bounds (lit "upvote")) eq_refl).
Defined.

(** X3 on a container whose [h3] holds spaces and a no-break space and
    whose [h2] has a name *)
Lemma container_without_name_is_dropped_witness :
  (Bs4.find (Bs4.NameIs (lit "h2")) [] Sample.hollow_item =
     Some (Tag (lit "h2") [] [NavigableString (lit "Real name")]) /\
   Bs4.find (Bs4.NameIs (lit "h3")) [] Sample.hollow_item =
     Some (Tag (lit "h3") [] [NavigableString [32; 160; 32]%N]) /\
   Bs4.get_text_strip (Tag (lit "h3") [] [NavigableString [32; 160; 32]%N]) = []) /\
  _extract_product_data (C := collaborators) Sample.hollow_item
    (lit "https://example.test/") world0 = (inr None, world0).
Proof.
  split; [repeat split|].
  apply (container_without_name_is_dropped (C := collaborators)).
  right. eexists. split; reflexivity.
Defined.


(** X7 on an FTP URL *)
Lemma rejected_page_url_raises_witness :
  http_url (lit "ftp://example.test/") = false /\
  (exists msg w',
     scrape_page (C := collaborators) (lit "ftp://example.test/") world0 =
       (inl (ValidationError msg), w')) /\
  (exists msg w',
     requests_scrape_page (C := collaborators) (lit "ftp://example.test/") world0 =
       (inl (ValidationError msg), w')).
Proof.
  split; [reflexivity|].
  apply (rejected_page_url_raises (C := collaborators)). reflexivity.
Defined.


(** X9 on the page of headings, with an FTP source URL *)
Lemma rejected_source_stops_parsing_witness :
  (http_url (lit "ftp://example.test/") = false /\
   filter long_enough (firstn 10 (titles plain_page)) <> []) /\
  exists msg w',
    _parse_products_simple (C := collaborators) plain_page
      (lit "ftp://example.test/") world0 = (inl (ValidationError msg), w').
Proof.
  assert (H : filter long_enough (firstn 10 (titles plain_page)) <> [])
    by discriminate.
  split; [split; [reflexivity|exact H]|].
  exact (proj2 (rejected_source_stops_parsing (C := collaborators)
                  plain_page (lit "ftp://example.test/") world0 eq_refl) H).
Defined.


(** X11 on one failed result and one empty success *)
Lemma nothing_to_save_witness :
  let results :=
    [mkScrapingResult false [] 0 (lit "https://example.test/down") 1
                      (Some (lit "net::ERR_CONNECTION_REFUSED"));
     mkScrapingResult true [] 0 (lit "https://example.test/plain") 2 None] in
  Forall (fun r => success r = false \/ products r = []) results /\
  save_results (C := collaborators) (Some MongoDB) results world0 =
    (inr tt, world0).
Proof.
  intros results.
  assert (H : Forall (fun r => success r = false \/ products r = []) results)
    by (repeat constructor; cbn; auto).
  split; [exact H|].
  exact (nothing_to_save (C := collaborators) (Some MongoDB) results world0 H).
Defined.


(** X14 on a database without the table *)
Lemma save_needs_the_constraint_witness :
  let c := PostgreSQLManager.connect None in
  fst (PostgreSQLManager.save_products 1 [widget_v1; gadget] c) = false /\
  option_map PostgreSQLManager.rows
    (PostgreSQLManager.products_table
       (snd (PostgreSQLManager.save_products 1 [widget_v1; gadget] c))) = Some [].
Proof.
  exact (save_needs_the_constraint None 1 widget_v1 [gadget] eq_refl).
Defined.

(** X16 on the stocked table and an empty collection *)
Lemma natural_key_stays_unique_witness :
  (NoDup (map (fun r => key_of (PostgreSQLManager.row_data r))
              (PostgreSQLManager.rows Sample.stocked_table)) /\
   NoDup (map (fun d => key_of (MongoDBManager.fields d))
              (MongoDBManager.documents empty_collection))) /\
  NoDup (map (fun d => key_of (MongoDBManager.fields d))
             (MongoDBManager.documents
                (snd (MongoDBManager.save_products
                        [widget_v1; gadget; widget_v2] empty_collection)))).
Proof.
  assert (Hpg : NoDup (map (fun r => key_of (PostgreSQLManager.row_data r))
                           (PostgreSQLManager.rows Sample.stocked_table)))
    by (repeat constructor; cbn; tauto).
  assert (Hmongo : NoDup (map (fun d => key_of (MongoDBManager.fields d))
                              (MongoDBManager.documents empty_collection)))
    by constructor.
  split; [split; assumption|].
  exact (proj2 (natural_key_stays_unique 1 [widget_v1; gadget; widget_v2]
                  Sample.stocked_table empty_collection Hpg Hmongo)).
Defined.

(** X17 on a batch in which the first record comes again at the end *)
Lemma mongo_round_trip_witness :
  Forall (fun q => same_key gadget q = false) [widget_v2] /\
  In gadget
     (map MongoDBManager.fields
          (MongoDBManager.get_products (T := mongo_order) None
             (snd (MongoDBManager.save_products
                     [widget_v1; gadget; widget_v2] empty_collection)))).
Proof.
  assert (H : Forall (fun q => same_key gadget q = false) [widget_v2])
    by (repeat constructor).
  split; [exact H|].
  exact (mongo_round_trip (MT := mongo_order) [widget_v1] gadget [widget_v2]
           empty_collection _ H eq_refl).
Defined.

(** X18 on the stocked table, for a record whose name has 256
    characters of which the last is a space: the row holds the first
    255 *)
Lemma postgres_round_trip_witness :
  (length (name Sample.padded) = 256%nat /\
   fst (PostgreSQLManager.save_products 9 [gadget; Sample.padded]
          (PostgreSQLManager.mkConnection (Some Sample.stocked_table) false))
     = true) /\
  exists r,
    In r (fst (PostgreSQLManager.get_products (T := pg_order) None
                 (snd (PostgreSQLManager.save_products 9 [gadget; Sample.padded]
                         (PostgreSQLManager.mkConnection
                            (Some Sample.stocked_table) false))))) /\
    name (PostgreSQLManager.row_data r) = repeat 97%N 255 /\
    tagline (PostgreSQLManager.row_data r) = lit "Padded" /\
    PostgreSQLManager.updated_at r = 9%Z.
Proof.
  split; [split; reflexivity|].
  destruct (postgres_round_trip (PT := pg_order) 9 [gadget] Sample.padded []
              Sample.stocked_table _ (Forall_nil _) eq_refl)
    as (r & Hin & Hview & Hts & _).
  exists r. split; [exact Hin|].
  unfold shared_view in Hview.
  injection Hview as Hname _ Htag _ _ _.
  split; [exact Hname|]. split; [exact Htag|exact Hts].
Defined.

(** X19 with a limit of 1 on two documents scraped at the same instant *)
Lemma positive_limit_keeps_most_recent_witness :
  (0 < 1 <= 9223372036854775807)%Z /\
  map (fun d => scraped_at (MongoDBManager.fields d))
      (MongoDBManager.get_products (T := mongo_order) (Some 1%Z) Sample.twins)
    = [100%Z] /\
  length (MongoDBManager.get_products (T := mongo_order) (Some 1%Z) Sample.twins)
    = 1%nat.
Proof.
  assert (Hn : (0 < 1 <= 9223372036854775807)%Z) by (split; reflexivity || discriminate).
  split; [exact Hn|].
  destruct (positive_limit_keeps_most_recent (PT := pg_order) (MT := mongo_order)
              1 Sample.stocked_table Sample.twins Hn)
    as (_ & Hkeys & _ & Hlen).
  split; [exact Hkeys|exact Hlen].
Defined.

(** X20 with a limit of -1 on the stocked table *)
Lemma negative_limit_breaks_reads_witness :
  (-1 < 0)%Z /\
  let c := PostgreSQLManager.mkConnection (Some Sample.stocked_table) false in
  let c1 := snd (PostgreSQLManager.get_products (T := pg_order) (Some (-1)%Z) c) in
  length (fst (PostgreSQLManager.get_products (T := pg_order) None c)) = 1%nat /\
  PostgreSQLManager.get_products (T := pg_order) None c1 = ([], c1).
Proof.
  split; [reflexivity|]. cbn zeta. split; [reflexivity|].
  exact (proj1 (proj2 (negative_limit_breaks_reads (PT := pg_order) (-1) 1
                         Sample.stocked_table widget_v1 [] eq_refl))).
Defined.

(** X22 on a collection in which two documents share a key *)
Lemma mongo_connect_keeps_documents_witness :
  (MongoDBManager.indexes Sample.doubled_collection = [] /\
   MongoDBManager.has_duplicate_key
     (MongoDBManager.documents Sample.doubled_collection) = true) /\
  exists c',
    MongoDBManager.connect (inr Sample.doubled_collection) = inr c' /\
    MongoDBManager.connect (inr c') = inr c' /\
    MongoDBManager.indexes c' =
      [MongoDBManager.mkIndex [("name", 1%Z)] false;
       MongoDBManager.mkIndex [("scraped_at", 1%Z)] false;
       MongoDBManager.mkIndex [("votes", (-1)%Z)] false].
Proof.
  split; [split; reflexivity|].
  destruct (proj2 (mongo_connect_keeps_documents Sample.doubled_collection))
    as (c' & Hc & _ & _ & Hagain & Hix).
  exists c'. split; [exact Hc|]. split; [exact Hagain|].
  exact (Hix eq_refl).
Defined.

End ConcreteExtra.
